(** * A one-shot batch task processor: model and properties

    The development follows [template.py]: the configuration models and their
    root validator, the generator wrapper [GeneratorErrorHandler], the [trace]
    decorator, the task runner [process_task] and the driver [main].

    Python code is embedded as functions in a state-and-exception monad over
    an explicit [world]: the shared metrics dictionary, the emitted log
    records, the process-wide shutdown event, the generator held by the
    handler, and the readings the program obtains from its environment (the
    clock, incoming signals, the thread pool accepting work). *)

From Stdlib Require Import ZArith Ascii String List Floats.
From stdpp Require Import gmap strings list.

Set Warnings "-register-all".

Local Open Scope string_scope.
Local Open Scope list_scope.
Local Open Scope Z_scope.

(** ** Numbers

    The program adds and divides Python floats and asks the standard library
    for [timedelta.total_seconds()]. These operations belong to the Python
    runtime; the model takes them as an interface. *)

Class PyFloat := {
  pyfloat : Type;
  (** the literal [0.0] *)
  fzero : pyfloat;
  (** conversion of an [int] operand in mixed arithmetic *)
  float_of_int : Z -> pyfloat;
  (** [x + y] on floats *)
  fadd : pyfloat -> pyfloat -> pyfloat;
  (** [x / y] on floats, used only behind a non-zero test of [y] *)
  fdiv : pyfloat -> pyfloat -> pyfloat;
  (** [timedelta.total_seconds()], the difference being kept in
      microseconds as [datetime] does *)
  total_seconds : Z -> pyfloat;
}.

(** IEEE 754 binary64, the representation of CPython floats. The integer
    conversion rounds to nearest even, exactly as CPython for every integer
    below the overflow threshold. *)
Definition binary64_of_Z (z : Z) : float :=
  SF2Prim (binary_normalize prec emax z 0 false).

#[export] Instance binary64 : PyFloat := {|
  pyfloat := float;
  fzero := 0%float;
  float_of_int := binary64_of_Z;
  fadd := PrimFloat.add;
  fdiv := PrimFloat.div;
  total_seconds := fun us => PrimFloat.div (binary64_of_Z us) 1000000%float;
|}.

Section Processor.
Context `{PyFloat}.

(** A number as the summary computes it: [sum] of an empty list and the
    fallback average are the [int] 0, everything else is a float. *)
Inductive number :=
  | PyInt (z : Z)
  | PyFloatN (x : pyfloat).

Definition to_float (n : number) : pyfloat :=
  match n with
  | PyInt z => float_of_int z
  | PyFloatN x => x
  end.

(** [n + x] as evaluated by [sum]: the accumulator is promoted to float. *)
Definition number_add (n : number) (x : pyfloat) : number :=
  PyFloatN (fadd (to_float n) x).

(** [sum(xs)]: starts from the [int] 0 and adds from the left. *)
Definition py_sum (xs : list pyfloat) : number :=
  fold_left number_add xs (PyInt 0).

(** [n / k] with [k] an [int]: true division, always a float. *)
Definition number_truediv (n : number) (k : Z) : number :=
  PyFloatN (fdiv (to_float n) (float_of_int k)).

(** ** Values

    Task parameters come from a JSON document, and a capability returns an
    arbitrary object; both are represented by JSON-shaped values. *)
Inductive value :=
  | VNone
  | VBool (b : bool)
  | VInt (z : Z)
  | VFloat (x : pyfloat)
  | VStr (s : string)
  | VList (vs : list value)
  | VDict (kvs : list (string * value)).

(** Lists and dicts are the unhashable values: using one as a dictionary key
    raises [TypeError]. *)
Definition hashable (v : value) : bool :=
  match v with
  | VList _ | VDict _ => false
  | _ => true
  end.

(** ** Configuration models *)

Record LibraryConfig := {
  name : string;
  version : string;
}.

Record TaskConfig := {
  id : string;
  params : gmap string value;
  expected_value : pyfloat;
}.

Record AppConfig := {
  threads : Z;
  libraries : list LibraryConfig;
  tasks : list TaskConfig;
}.

(** ** Exceptions

    Messages and log records keep their format string and arguments apart,
    the way [logging] stores them. *)
Inductive error_class :=
  | RuntimeError
  | ValueError
  | TypeError
  | ImportError
  | ValidationError
  (** any other class derived from [Exception], by name *)
  | OtherError (cls : string).

Inductive arg :=
  | AStr (s : string)
  | AInt (z : Z)
  | ANum (n : number)
  | AFloat (x : pyfloat)
  | AValue (v : value)
  (** an exception instance passed as an argument: its class and message *)
  | AError (cls : error_class) (f : string) (a : list arg).

Record text := { fmt : string; args : list arg }.

(** An error is an instance of a class derived from [Exception]; this is
    what generators and capabilities raise to signal a failure. *)
Record error := { err_class : error_class; err_text : text }.

Definition arg_of_error (e : error) : arg :=
  AError (err_class e) (fmt (err_text e)) (args (err_text e)).

Inductive exn :=
  | StopIteration
  | SystemExit (code : Z)
  | Error (e : error).

(** [isinstance(e, Exception)]: [SystemExit] derives from [BaseException]
    only. *)
Definition is_Exception (e : exn) : bool :=
  match e with
  | StopIteration => true
  | SystemExit _ => false
  | Error _ => true
  end.

(** An exception used as a [%s] argument. *)
Definition arg_of_exn (e : exn) : arg :=
  match e with
  | StopIteration => AStr ""
  | SystemExit code => AInt code
  | Error e => arg_of_error e
  end.

(** ** Capabilities and the registry

    A loaded library module exposes [compute], called with the task's
    parameters as keyword arguments, which returns a
    value or raises an error. A module object is always true in a boolean
    context, so [not lib] holds exactly when the registry lookup gave
    [None]. *)
Inductive computed :=
  | Returns (v : value)
  | Fails (e : error).

Record Capability := { compute : gmap string value -> computed }.

(** ** Generators

    What the wrapped generator will do on its successive resumptions: yield
    a task or raise. Running off the end is exhaustion. *)
Inductive gen_event :=
  | Yield (t : TaskConfig)
  | Throw (e : error).

(** ** Metrics

    The metrics dictionary of [main]: five keys that are always present and
    ['generator_errors'], which exists only once [setdefault] created it. *)
Record RunMetrics := {
  task_count : Z;
  success_count : Z;
  failure_count : Z;
  durations : list pyfloat;
  business_value : pyfloat;
  generator_errors : option Z;
}.

(** ** Log records *)
Inductive level := DEBUG | INFO | WARNING | ERROR.

Record LogRecord := {
  lvl : level;
  msg : text;
  (** set by [logging.exception]: the exception being handled *)
  exc_info : option exn;
}.

(** ** The world *)
Record world := {
  (** the module-level [Event] *)
  shutdown_event : bool;
  (** the shared metrics dictionary *)
  metrics : RunMetrics;
  (** every record handed to [logging], oldest first *)
  log : list LogRecord;
  (** [self._gen] of the handler: the resumptions still to come *)
  gen : list gen_event;
  (** successive readings of [datetime.utcnow()], in microseconds *)
  clock : nat -> Z;
  (** for each point at which the main thread may be interrupted, the
      number of the signal delivered there, if any *)
  signals : nat -> option Z;
  (** for each call of [executor.submit], whether the pool fails to take
      the work *)
  pool_fault : nat -> bool;
}.

Definition set_shutdown_event (b : bool) (w : world) : world :=
  {| shutdown_event := b; metrics := metrics w; log := log w; gen := gen w;
     clock := clock w; signals := signals w; pool_fault := pool_fault w |}.

Definition set_metrics (m : RunMetrics) (w : world) : world :=
  {| shutdown_event := shutdown_event w; metrics := m; log := log w;
     gen := gen w; clock := clock w; signals := signals w;
     pool_fault := pool_fault w |}.

Definition set_log (l : list LogRecord) (w : world) : world :=
  {| shutdown_event := shutdown_event w; metrics := metrics w; log := l;
     gen := gen w; clock := clock w; signals := signals w;
     pool_fault := pool_fault w |}.

Definition set_gen (g : list gen_event) (w : world) : world :=
  {| shutdown_event := shutdown_event w; metrics := metrics w; log := log w;
     gen := g; clock := clock w; signals := signals w;
     pool_fault := pool_fault w |}.

Definition set_clock (c : nat -> Z) (w : world) : world :=
  {| shutdown_event := shutdown_event w; metrics := metrics w; log := log w;
     gen := gen w; clock := c; signals := signals w;
     pool_fault := pool_fault w |}.

Definition set_signals (s : nat -> option Z) (w : world) : world :=
  {| shutdown_event := shutdown_event w; metrics := metrics w; log := log w;
     gen := gen w; clock := clock w; signals := s;
     pool_fault := pool_fault w |}.

Definition set_pool_fault (p : nat -> bool) (w : world) : world :=
  {| shutdown_event := shutdown_event w; metrics := metrics w; log := log w;
     gen := gen w; clock := clock w; signals := signals w;
     pool_fault := p |}.

(** ** The monad

    A computation maps a world to its outcome and the world it leaves
    behind; mutations made before an exception is raised are kept. [None]
    is reserved for a loop that was not given enough iterations. *)
Inductive result (A : Type) :=
  | Return (a : A)
  | Raise (e : exn).
Arguments Return {A} a.
Arguments Raise {A} e.

Definition M (A : Type) : Type := world -> option (result A * world).

Definition ret {A} (a : A) : M A := fun w => Some (Return a, w).

Definition raise {A} (e : exn) : M A := fun w => Some (Raise e, w).

Definition bind {A B} (m : M A) (k : A -> M B) : M B :=
  fun w =>
    match m w with
    | None => None
    | Some (Return a, w') => k a w'
    | Some (Raise e, w') => Some (Raise e, w')
    end.

#[global] Instance M_ret : MRet M := @ret.
#[global] Instance M_bind : MBind M := fun A B k m => bind m k.

(** [try: body / except ...: handler]. The handler table answers [None] for
    an exception that no clause matches, which then keeps propagating. *)
Definition try_except {A} (body : M A) (clauses : exn -> option (M A)) : M A :=
  fun w =>
    match body w with
    | None => None
    | Some (Return a, w') => Some (Return a, w')
    | Some (Raise e, w') =>
        match clauses e with
        | Some handler => handler w'
        | None => Some (Raise e, w')
        end
    end.

(** [try: body / finally: final]. The final block always runs; when it
    raises, its exception replaces whatever the body was returning or
    raising. *)
Definition try_finally {A} (body : M A) (final : M unit) : M A :=
  fun w =>
    match body w with
    | None => None
    | Some (r, w') =>
        match final w' with
        | None => None
        | Some (Return _, w'') => Some (r, w'')
        | Some (Raise e, w'') => Some (Raise e, w'')
        end
    end.

(** The clause [except Exception:]. *)
Definition except_Exception {A} (handler : exn -> M A) (e : exn) : option (M A) :=
  if is_Exception e then Some (handler e) else None.

(** ** Primitive operations on the world *)

Definition get_metrics : M RunMetrics := fun w => Some (Return (metrics w), w).

Definition put_metrics (m : RunMetrics) : M unit :=
  fun w => Some (Return tt, set_metrics m w).

(** [shutdown_event.is_set()] *)
Definition is_set : M bool := fun w => Some (Return (shutdown_event w), w).

(** [shutdown_event.set()] *)
Definition set_event : M unit :=
  fun w => Some (Return tt, set_shutdown_event true w).

(** [datetime.utcnow()] takes the next reading of the clock. *)
Definition utcnow : M Z :=
  fun w => Some (Return (clock w 0%nat), set_clock (fun n => clock w (S n)) w).

Definition emit (r : LogRecord) : M unit :=
  fun w => Some (Return tt, set_log (log w ++ [r]) w).

Definition logging_debug (f : string) (a : list arg) : M unit :=
  emit {| lvl := DEBUG; msg := {| fmt := f; args := a |}; exc_info := None |}.

Definition logging_info (f : string) (a : list arg) : M unit :=
  emit {| lvl := INFO; msg := {| fmt := f; args := a |}; exc_info := None |}.

Definition logging_warning (f : string) (a : list arg) : M unit :=
  emit {| lvl := WARNING; msg := {| fmt := f; args := a |}; exc_info := None |}.

(** [logging.exception]: an ERROR record carrying the exception in flight. *)
Definition logging_exception (f : string) (a : list arg) (e : exn) : M unit :=
  emit {| lvl := ERROR; msg := {| fmt := f; args := a |}; exc_info := Some e |}.

(** [sys.exit(code)] *)
Definition sys_exit {A} (code : Z) : M A := raise (SystemExit code).

(** ** Updates of the metrics dictionary *)

Definition incr_task_count (m : RunMetrics) : RunMetrics :=
  {| task_count := task_count m + 1; success_count := success_count m;
     failure_count := failure_count m; durations := durations m;
     business_value := business_value m;
     generator_errors := generator_errors m |}.

Definition incr_success_count (m : RunMetrics) : RunMetrics :=
  {| task_count := task_count m; success_count := success_count m + 1;
     failure_count := failure_count m; durations := durations m;
     business_value := business_value m;
     generator_errors := generator_errors m |}.

Definition incr_failure_count (m : RunMetrics) : RunMetrics :=
  {| task_count := task_count m; success_count := success_count m;
     failure_count := failure_count m + 1; durations := durations m;
     business_value := business_value m;
     generator_errors := generator_errors m |}.

Definition append_duration (d : pyfloat) (m : RunMetrics) : RunMetrics :=
  {| task_count := task_count m; success_count := success_count m;
     failure_count := failure_count m; durations := durations m ++ [d];
     business_value := business_value m;
     generator_errors := generator_errors m |}.

Definition add_business_value (x : pyfloat) (m : RunMetrics) : RunMetrics :=
  {| task_count := task_count m; success_count := success_count m;
     failure_count := failure_count m; durations := durations m;
     business_value := fadd (business_value m) x;
     generator_errors := generator_errors m |}.

(** [metrics.setdefault('generator_errors', 0)] followed by
    [metrics['generator_errors'] += 1]. *)
Definition incr_generator_errors (m : RunMetrics) : RunMetrics :=
  {| task_count := task_count m; success_count := success_count m;
     failure_count := failure_count m; durations := durations m;
     business_value := business_value m;
     generator_errors := Some (default 0 (generator_errors m) + 1) |}.

Definition update_metrics (f : RunMetrics -> RunMetrics) : M unit :=
  fun w => Some (Return tt, set_metrics (f (metrics w)) w).

(** ** The generator wrapper *)

(** The wrapper object. Its [_gen] is the [gen] component of the world;
    [self_metrics] tells whether a metrics dictionary was given to the
    constructor ([self.metrics is not None]), in which case it is the shared
    one. *)
Record GeneratorErrorHandler := {
  self_metrics : bool;
  self_name : string;
}.

(** [next(self._gen)]: resume the generator. A generator that raised is
    finished. *)
Definition next_gen : M TaskConfig :=
  fun w =>
    match gen w with
    | [] => Some (Raise StopIteration, w)
    | Yield t :: g => Some (Return t, set_gen g w)
    | Throw e :: _ => Some (Raise (Error e), set_gen [] w)
    end.

Definition GeneratorErrorHandler_next (self : GeneratorErrorHandler) : M TaskConfig :=
  stop ← is_set;
  if stop : bool then raise StopIteration
  else
    try_except next_gen
      (fun e =>
         match e with
         | StopIteration => Some (raise e)
         | _ =>
             except_Exception
               (fun e =>
                  logging_exception "Error in generator '%s': %s"
                    [AStr (self_name self); arg_of_exn e] e;;
                  (if self_metrics self
                   then update_metrics incr_generator_errors
                   else ret tt);;
                  raise e) e
         end).

(** ** Tracing *)

Definition trace {A} (func_name : string) (func : M A) : M A :=
  start ← utcnow;
  logging_debug "Entering %s" [AStr func_name];;
  try_finally func
    (stop ← utcnow;
     let duration := total_seconds (stop - start) in
     logging_debug "Exiting %s, duration=%0.4fs" [AStr func_name; AFloat duration]).

(** ** The task runner *)

(** [libs.get(key)] for a registry keyed by strings. *)
Definition libs_get (libs : gmap string Capability) (key : value) : M (option Capability) :=
  match key with
  | VStr s => ret (libs !! s)
  | VList _ | VDict _ =>
      raise (Error {| err_class := TypeError;
                      err_text := {| fmt := "unhashable type"; args := [] |} |})
  | _ => ret None
  end.

(** [lib.compute] applied to the task's parameters. *)
Definition call_compute (lib : Capability) (kwargs : gmap string value) : M value :=
  match compute lib kwargs with
  | Returns v => ret v
  | Fails e => raise (Error e)
  end.

(** [task.params.get('lib_name')] *)
Definition lib_name (task : TaskConfig) : value :=
  default VNone (params task !! "lib_name").

(** The function under the decorator. *)
Definition process_task_body (task : TaskConfig) (libs : gmap string Capability)
  : M (string * value) :=
  try_except
    (start ← utcnow;
     lib ← libs_get libs (lib_name task);
     match lib with
     | None =>
         raise (Error {| err_class := RuntimeError;
                         err_text := {| fmt := "Library %s not configured";
                                        args := [AValue (lib_name task)] |} |})
     | Some lib =>
         result ← call_compute lib (params task);
         stop ← utcnow;
         let duration := total_seconds (stop - start) in
         update_metrics incr_task_count;;
         update_metrics incr_success_count;;
         update_metrics (append_duration duration);;
         update_metrics (add_business_value (expected_value task));;
         logging_info "Task %s succeeded in %0.3fs, value=%0.2f"
           [AStr (id task); AFloat duration; AFloat (expected_value task)];;
         ret (id task, result)
     end)
    (except_Exception
       (fun e =>
          update_metrics incr_task_count;;
          update_metrics incr_failure_count;;
          logging_exception "Task %s failed" [AStr (id task)] e;;
          ret (id task, VNone))).

Definition process_task (task : TaskConfig) (libs : gmap string Capability)
  : M (string * value) :=
  trace "process_task" (process_task_body task libs).

(** ** Configuration validation *)

(** A decoded configuration document whose fields have the declared types;
    [threads] may be left out. *)
Record Document := {
  doc_threads : option Z;
  doc_libraries : list LibraryConfig;
  doc_tasks : list TaskConfig;
}.

Definition distinct (keys : list string) : bool :=
  bool_decide (size (list_to_set keys : gset string) = length keys).

(** The root validator: [None] when it returns its values, the
    [ValueError] it raises otherwise. *)
Definition check_unique_libraries_and_tasks
    (libs : list LibraryConfig) (tasks : list TaskConfig) : option error :=
  if negb (distinct (name <$> libs)) then
    Some {| err_class := ValueError;
            err_text := {| fmt := "Duplicate library names in configuration";
                           args := [] |} |}
  else if negb (distinct (id <$> tasks)) then
    Some {| err_class := ValueError;
            err_text := {| fmt := "Duplicate task IDs in configuration";
                           args := [] |} |}
  else None.

(** The constraint [gt=0] on [threads], whose default is 4. *)
Definition check_threads (n : Z) : option error :=
  if 0 <? n then None
  else Some {| err_class := ValueError;
               err_text := {| fmt := "ensure this value is greater than 0";
                              args := [] |} |}.

(** [AppConfig.parse_obj]: field constraints and the root validator are all
    run, and their errors are gathered in one [ValidationError]. *)
Definition AppConfig_parse_obj (doc : Document) : M AppConfig :=
  let n := default 4 (doc_threads doc) in
  let errors :=
    option_list (check_threads n) ++
    option_list (check_unique_libraries_and_tasks (doc_libraries doc) (doc_tasks doc)) in
  match errors with
  | [] => ret {| threads := n; libraries := doc_libraries doc; tasks := doc_tasks doc |}
  | _ =>
      raise (Error {| err_class := ValidationError;
                      err_text := {| fmt := "validation errors for AppConfig";
                                     args := arg_of_error <$> errors |} |})
  end.

(** ** Loading libraries *)

(** [s.replace(old, new)] for one-character strings. *)
Fixpoint replace_char (old new : ascii) (s : string) : string :=
  match s with
  | EmptyString => EmptyString
  | String c s' =>
      String (if Ascii.eqb c old then new else c) (replace_char old new s')
  end.

Definition module_name (lib_cfg : LibraryConfig) : string :=
  name lib_cfg +:+ "_v" +:+ replace_char "." "_" (version lib_cfg).

(** [modules] are the importable modules, by name. *)
Definition load_precompiled_library (modules : gmap string Capability)
    (lib_cfg : LibraryConfig) : M Capability :=
  match modules !! module_name lib_cfg with
  | Some module =>
      logging_info "Loaded library: %s (module %s)"
        [AStr (name lib_cfg); AStr (module_name lib_cfg)];;
      ret module
  | None =>
      let e := Error {| err_class := ImportError;
                        err_text := {| fmt := "No module named %s";
                                       args := [AStr (module_name lib_cfg)] |} |} in
      logging_exception "Failed to load library %s version %s"
        [AStr (name lib_cfg); AStr (version lib_cfg)] e;;
      raise e
  end.

(** [{lib.name: load_precompiled_library(lib) for lib in libs}] *)
Fixpoint load_libraries (modules : gmap string Capability)
    (libs : list LibraryConfig) (acc : gmap string Capability)
  : M (gmap string Capability) :=
  match libs with
  | [] => ret acc
  | lib :: libs' =>
      module ← load_precompiled_library modules lib;
      load_libraries modules libs' (<[name lib := module]> acc)
  end.

(** ** Signals and cleanup *)

Definition cleanup : M unit :=
  logging_info "Running cleanup before exit..." [];;
  logging_info "Cleanup complete." [].

Definition signal_handler (signum : Z) : M unit :=
  logging_warning "Received signal %d, shutting down." [AInt signum];;
  set_event.

(** A point at which the main thread can be interrupted: the handler runs
    if a signal is delivered there. The event is only ever read by the main
    thread, so a signal arriving at any moment has the effect of one
    delivered at the next such point. *)
Definition interrupt : M unit :=
  fun w =>
    let w' := set_signals (fun n => signals w (S n)) w in
    match signals w 0%nat with
    | Some signum => signal_handler signum w'
    | None => Some (Return tt, w')
    end.

(** A read of the event in [main]. *)
Definition poll : M bool := interrupt;; is_set.

(** ** The thread pool

    Workers are run one after the other, each task at the moment it is
    submitted. A future holds what its call returned or raised. *)
Definition Future (A : Type) : Type := result A.

Definition cannot_start_thread : error :=
  {| err_class := RuntimeError;
     err_text := {| fmt := "can't start new thread"; args := [] |} |}.

Definition executor_submit {A} (fn : M A) : M (Future A) :=
  fun w =>
    let w' := set_pool_fault (fun n => pool_fault w (S n)) w in
    if pool_fault w 0%nat then Some (Raise (Error cannot_start_thread), w')
    else
      match fn w' with
      | None => None
      | Some (r, w'') => Some (Return r, w'')
      end.

(** [wait(futures, return_when=FIRST_EXCEPTION)] gives the futures that are
    done and those that are not; every submitted call has finished here. *)
Definition wait {A} (futures : list (Future A)) : list (Future A) * list (Future A) :=
  (futures, []).

(** [for f in not_done: f.cancel()] *)
Definition cancel_all {A} (not_done : list (Future A)) : M unit :=
  ret tt.

(** ** Loops *)

Inductive flow := Continue | Break.

(** [for x in it: body], with the variables the body assigns as an
    accumulator. [StopIteration] from [it] ends the loop. *)
Fixpoint for_in {A S} (fuel : nat) (next : M A) (body : A -> S -> M (flow * S))
    (acc : S) : M S :=
  match fuel with
  | O => fun _ => None
  | Datatypes.S fuel' =>
      fun w =>
        match next w with
        | None => None
        | Some (Raise StopIteration, w') => Some (Return acc, w')
        | Some (Raise e, w') => Some (Raise e, w')
        | Some (Return x, w') =>
            match body x acc w' with
            | None => None
            | Some (Raise e, w'') => Some (Raise e, w'')
            | Some (Return (Break, acc'), w'') => Some (Return acc', w'')
            | Some (Return (Continue, acc'), w'') => for_in fuel' next body acc' w''
            end
        end
  end.

(** ** The driver *)

Definition initial_metrics : RunMetrics :=
  {| task_count := 0; success_count := 0; failure_count := 0;
     durations := []; business_value := fzero; generator_errors := None |}.

(** [task_generator(tasks)]: yields the tasks in order, then is exhausted. *)
Definition task_generator (tasks : list TaskConfig) : list gen_event :=
  Yield <$> tasks.

(** [sum(metrics['durations']) / succ if succ else 0] *)
Definition avg_time (m : RunMetrics) : number :=
  if success_count m =? 0 then PyInt 0
  else number_truediv (py_sum (durations m)) (success_count m).

(** The summary record of the [finally] block. *)
Definition summary_record (m : RunMetrics) : LogRecord :=
  {| lvl := INFO;
     msg := {| fmt := "Completed %d tasks: %d success, %d failure, avg time=%.3fs, total value=%.2f, generator errors=%d";
               args := [AInt (task_count m); AInt (success_count m);
                        AInt (failure_count m); ANum (avg_time m);
                        AFloat (business_value m);
                        AInt (default 0 (generator_errors m))] |};
     exc_info := None |}.

(** The body of the submission loop: stop on shutdown, otherwise submit the
    task and keep its future. *)
Definition submit_task (libs : gmap string Capability) (task : TaskConfig)
    (futures : list (Future (string * value)))
  : M (flow * list (Future (string * value))) :=
  stop ← poll;
  if stop : bool then ret (Break, futures)
  else
    f ← executor_submit (process_task task libs);
    ret (Continue, futures ++ [f]).

(** The body of the [with ThreadPoolExecutor(...)] block. Leaving the block
    joins the workers, all of which have finished by then. *)
Definition submit_and_wait (self : GeneratorErrorHandler)
    (libs : gmap string Capability) (fuel : nat) : M unit :=
  futures ← for_in fuel (interrupt;; GeneratorErrorHandler_next self)
    (submit_task libs) [];
  let '(done, not_done) := wait futures in
  stop ← poll;
  if stop : bool then
    logging_info "Shutdown requested, cancelling remaining tasks." [];;
    cancel_all not_done
  else ret tt.

(** The [finally] block of [main]. In [1 if fail or
    shutdown_event.is_set() else 0] the event is read only when [fail] is
    zero. *)
Definition summarize_and_exit : M unit :=
  m ← get_metrics;
  emit (summary_record m);;
  cleanup;;
  if negb (failure_count m =? 0) then sys_exit 1
  else
    stop ← poll;
    sys_exit (if stop : bool then 1 else 0).

(** [main] from the creation of the metrics dictionary on, for the
    generator [g] handed to the wrapper. *)
Definition run_batch (g : list gen_event) (libs : gmap string Capability) : M unit :=
  put_metrics initial_metrics;;
  (fun w => Some (Return tt, set_gen g w));;
  let self := {| self_metrics := true; self_name := "task_generator" |} in
  try_finally
    (try_except
       (submit_and_wait self libs (S (length g)))
       (except_Exception
          (fun e =>
             logging_exception "Fatal error during processing" [] e;;
             sys_exit 1)))
    summarize_and_exit.

(** The clause [except (ValidationError, ValueError, json.JSONDecodeError):]. *)
Definition except_invalid {A} (handler : exn -> M A) (e : exn) : option (M A) :=
  match e with
  | Error {| err_class := ValidationError |}
  | Error {| err_class := ValueError |} => Some (handler e)
  | _ => None
  end.

Definition main (doc : Document) (modules : gmap string Capability) : M unit :=
  cfg ← try_except (AppConfig_parse_obj doc)
    (except_invalid
       (fun e =>
          logging_exception "Invalid configuration -- aborting" [] e;;
          sys_exit 1));
  libs ← load_libraries modules (libraries cfg) ∅;
  run_batch (task_generator (tasks cfg)) libs.

(** ** The process *)

(** The status the interpreter exits with: the code of a [SystemExit], 1
    for any other uncaught exception, 0 when the script runs off its end. *)
Definition exit_status {A} (r : result A) : Z :=
  match r with
  | Return _ => 0
  | Raise (SystemExit code) => code
  | Raise _ => 1
  end.

(** Running the script: the module-level [shutdown_event = Event()], a
    clear event, then [main()], then the [atexit] hook. Gives the exit
    status and the final world. *)
Definition run_script (doc : Document) (modules : gmap string Capability)
    (w : world) : option (Z * world) :=
  match main doc modules (set_shutdown_event false w) with
  | None => None
  | Some (r, w') =>
      match cleanup w' with
      | Some (_, w'') => Some (exit_status r, w'')
      | None => None
      end
  end.

(** ** Vocabulary for the properties *)

(** The task names a capability that the registry holds. *)
Definition resolves (task : TaskConfig) (libs : gmap string Capability)
    (lib : Capability) : Prop :=
  exists s, lib_name task = VStr s /\ libs !! s = Some lib.

(** The capability is absent from the registry. *)
Definition unresolved (task : TaskConfig) (libs : gmap string Capability) : Prop :=
  forall lib, ~ resolves task libs lib.

(** The capability is found and its [compute] raises [e]. *)
Definition compute_raises (task : TaskConfig) (libs : gmap string Capability)
    (e : error) : Prop :=
  exists lib, resolves task libs lib /\ compute lib (params task) = Fails e.

(** The exception that the runner's [try] block raises, if any. *)
Definition caught (task : TaskConfig) (libs : gmap string Capability) : option exn :=
  let not_configured :=
    Error {| err_class := RuntimeError;
             err_text := {| fmt := "Library %s not configured";
                            args := [AValue (lib_name task)] |} |} in
  match lib_name task with
  | VStr s =>
      match libs !! s with
      | Some lib =>
          match compute lib (params task) with
          | Returns _ => None
          | Fails e => Some (Error e)
          end
      | None => Some not_configured
      end
  | VList _ | VDict _ =>
      Some (Error {| err_class := TypeError;
                     err_text := {| fmt := "unhashable type"; args := [] |} |})
  | _ => Some not_configured
  end.

Definition entering_record : LogRecord :=
  {| lvl := DEBUG;
     msg := {| fmt := "Entering %s"; args := [AStr "process_task"] |};
     exc_info := None |}.

Definition exiting_record (duration : pyfloat) : LogRecord :=
  {| lvl := DEBUG;
     msg := {| fmt := "Exiting %s, duration=%0.4fs";
               args := [AStr "process_task"; AFloat duration] |};
     exc_info := None |}.

Definition succeeded_record (task : TaskConfig) (duration : pyfloat) : LogRecord :=
  {| lvl := INFO;
     msg := {| fmt := "Task %s succeeded in %0.3fs, value=%0.2f";
               args := [AStr (id task); AFloat duration;
                        AFloat (expected_value task)] |};
     exc_info := None |}.

Definition generator_error_record (self : GeneratorErrorHandler) (e : exn) : LogRecord :=
  {| lvl := ERROR;
     msg := {| fmt := "Error in generator '%s': %s";
               args := [AStr (self_name self); arg_of_exn e] |};
     exc_info := Some e |}.

Definition invalid_configuration_record (e : exn) : LogRecord :=
  {| lvl := ERROR;
     msg := {| fmt := "Invalid configuration -- aborting"; args := [] |};
     exc_info := Some e |}.

Definition fatal_error_record (e : exn) : LogRecord :=
  {| lvl := ERROR;
     msg := {| fmt := "Fatal error during processing"; args := [] |};
     exc_info := Some e |}.

Definition cleanup_records : list LogRecord :=
  [ {| lvl := INFO;
       msg := {| fmt := "Running cleanup before exit..."; args := [] |};
       exc_info := None |};
    {| lvl := INFO;
       msg := {| fmt := "Cleanup complete."; args := [] |};
       exc_info := None |} ].

Definition failed_record (task : TaskConfig) (e : exn) : LogRecord :=
  {| lvl := ERROR;
     msg := {| fmt := "Task %s failed"; args := [AStr (id task)] |};
     exc_info := Some e |}.

(** The world a successful call of the runner leaves: four clock readings
    are consumed, of which the second and third delimit the recorded
    duration. *)
Definition after_success (task : TaskConfig) (w : world) : world :=
  let duration := total_seconds (clock w 2%nat - clock w 1%nat) in
  {| shutdown_event := shutdown_event w;
     metrics :=
       add_business_value (expected_value task)
         (append_duration duration
            (incr_success_count (incr_task_count (metrics w))));
     log := log w ++ [entering_record; succeeded_record task duration;
                      exiting_record (total_seconds (clock w 3%nat - clock w 0%nat))];
     gen := gen w;
     clock := fun n => clock w (4 + n)%nat;
     signals := signals w;
     pool_fault := pool_fault w |}.

(** The world a failed call leaves: three clock readings are consumed. *)
Definition after_failure (task : TaskConfig) (e : exn) (w : world) : world :=
  {| shutdown_event := shutdown_event w;
     metrics := incr_failure_count (incr_task_count (metrics w));
     log := log w ++ [entering_record; failed_record task e;
                      exiting_record (total_seconds (clock w 2%nat - clock w 0%nat))];
     gen := gen w;
     clock := fun n => clock w (3 + n)%nat;
     signals := signals w;
     pool_fault := pool_fault w |}.

(** ** Vocabulary for runs of several tasks *)

(** The value the runner returns beside the task's id: what [compute]
    returned, or [None]. *)
Definition returned (task : TaskConfig) (libs : gmap string Capability) : value :=
  match lib_name task with
  | VStr s =>
      match libs !! s with
      | Some lib =>
          match compute lib (params task) with
          | Returns v => v
          | Fails _ => VNone
          end
      | None => VNone
      end
  | _ => VNone
  end.

(** The task's [try] block raises nothing. *)
Definition succeeds (libs : gmap string Capability) (task : TaskConfig) : bool :=
  match caught task libs with
  | None => true
  | Some _ => false
  end.

Definition fails (libs : gmap string Capability) (task : TaskConfig) : bool :=
  negb (succeeds libs task).

(** The world one call of the runner leaves, and the world left by calls
    for the tasks of a list, one after the other. *)
Definition after_task (libs : gmap string Capability) (task : TaskConfig)
    (w : world) : world :=
  match caught task libs with
  | None => after_success task w
  | Some e => after_failure task e w
  end.

Definition after_tasks (libs : gmap string Capability) (tasks : list TaskConfig)
    (w : world) : world :=
  fold_left (fun w task => after_task libs task w) tasks w.

(** Two worlds record the same work: same metrics, same log, same clock. *)
Definition same_work (w1 w2 : world) : Prop :=
  metrics w1 = metrics w2 /\ log w1 = log w2 /\ clock w1 = clock w2.

(** The counters agree with each other: every counted task is a success
    or a failure, and there is one duration sample per success. *)
Definition consistent (m : RunMetrics) : Prop :=
  task_count m = success_count m + failure_count m /\
  success_count m = Z.of_nat (length (durations m)) /\
  0 <= failure_count m.

(** [list(it)]: the elements an iterator produces until it stops. *)
Definition collect {A} (fuel : nat) (next : M A) : M (list A) :=
  for_in fuel next (fun x acc => ret (Continue, acc ++ [x])) [].

Definition signal_record (signum : Z) : LogRecord :=
  {| lvl := WARNING;
     msg := {| fmt := "Received signal %d, shutting down."; args := [AInt signum] |};
     exc_info := None |}.

Definition trace_entering (func_name : string) : LogRecord :=
  {| lvl := DEBUG;
     msg := {| fmt := "Entering %s"; args := [AStr func_name] |};
     exc_info := None |}.

Definition trace_exiting (func_name : string) (duration : pyfloat) : LogRecord :=
  {| lvl := DEBUG;
     msg := {| fmt := "Exiting %s, duration=%0.4fs";
               args := [AStr func_name; AFloat duration] |};
     exc_info := None |}.

Definition import_error (lib_cfg : LibraryConfig) : exn :=
  Error {| err_class := ImportError;
           err_text := {| fmt := "No module named %s";
                          args := [AStr (module_name lib_cfg)] |} |}.

Definition library_loaded_record (lib_cfg : LibraryConfig) : LogRecord :=
  {| lvl := INFO;
     msg := {| fmt := "Loaded library: %s (module %s)";
               args := [AStr (name lib_cfg); AStr (module_name lib_cfg)] |};
     exc_info := None |}.

Definition library_failed_record (lib_cfg : LibraryConfig) : LogRecord :=
  {| lvl := ERROR;
     msg := {| fmt := "Failed to load library %s version %s";
               args := [AStr (name lib_cfg); AStr (version lib_cfg)] |};
     exc_info := Some (import_error lib_cfg) |}.

Definition shutdown_requested_record : LogRecord :=
  {| lvl := INFO;
     msg := {| fmt := "Shutdown requested, cancelling remaining tasks.";
               args := [] |};
     exc_info := None |}.

End Processor.

Arguments Return {H A} a.
Arguments Raise {H A} e.

(** ** A concrete batch

    One library [echo], whose [compute] returns its keyword argument [x];
    tasks [t1] and [t2] use it, [t3] names a library that is not
    configured, and [t4] omits the argument [echo] needs. *)

Definition echo : Capability :=
  {| compute := fun kwargs =>
       match kwargs !! "x" with
       | Some v => Returns v
       | None =>
           Fails {| err_class := TypeError;
                    err_text := {| fmt := "compute() missing argument 'x'";
                                   args := [] |} |}
       end |}.

Definition t1 : TaskConfig :=
  {| id := "t1";
     params := {[ "lib_name" := VStr "echo"; "x" := VInt 1 ]};
     expected_value := 1.5%float |}.

Definition t2 : TaskConfig :=
  {| id := "t2";
     params := {[ "lib_name" := VStr "echo"; "x" := VInt 2 ]};
     expected_value := 2.25%float |}.

Definition t3 : TaskConfig :=
  {| id := "t3";
     params := {[ "lib_name" := VStr "missing" ]};
     expected_value := 4%float |}.

Definition t4 : TaskConfig :=
  {| id := "t4";
     params := {[ "lib_name" := VStr "echo" ]};
     expected_value := 8%float |}.

Definition echo_registry : gmap string Capability := {[ "echo" := echo ]}.

Definition echo_modules : gmap string Capability := {[ "echo_v1_0" := echo ]}.

Definition echo_library : LibraryConfig := {| name := "echo"; version := "1.0" |}.

(** A quiet start: a clock ticking once per second, no signal, a pool that
    takes every submission. *)
Definition quiet : world :=
  {| shutdown_event := false;
     metrics := initial_metrics;
     log := [];
     gen := [];
     clock := fun n => 1000000 * Z.of_nat n;
     signals := fun _ => None;
     pool_fault := fun _ => false |}.

(** The generator of the unit test: it yields once and then raises. *)
Definition boom : error :=
  {| err_class := RuntimeError; err_text := {| fmt := "boom"; args := [] |} |}.

Definition broken_gen : list gen_event := [Yield t1; Throw boom].

(** The wrapper as [main] builds it. *)
Definition task_stream : GeneratorErrorHandler :=
  {| self_metrics := true; self_name := "task_generator" |}.

(** Configuration documents: no task; a repeated task id; one task; the
    three tasks [t1], [t2], [t3]. *)
Definition empty_document : Document :=
  {| doc_threads := Some 2; doc_libraries := [echo_library]; doc_tasks := [] |}.

Definition duplicate_document : Document :=
  {| doc_threads := Some 1; doc_libraries := [];
     doc_tasks := [t1; {| id := "t1"; params := ∅; expected_value := 0.25%float |}] |}.

Definition one_task_document : Document :=
  {| doc_threads := Some 2; doc_libraries := [echo_library]; doc_tasks := [t1] |}.

Definition scenario_document : Document :=
  {| doc_threads := Some 2; doc_libraries := [echo_library];
     doc_tasks := [t1; t2; t3] |}.

(** A pool that cannot start its first worker thread: the first
    [executor.submit] raises [RuntimeError]. *)
Definition refusing_pool : world :=
  set_pool_fault (fun n => Nat.eqb n 0) quiet.

Definition loaded_record : LogRecord :=
  {| lvl := INFO;
     msg := {| fmt := "Loaded library: %s (module %s)";
               args := [AStr "echo"; AStr "echo_v1_0"] |};
     exc_info := None |}.

(** More inputs: a document asking for no thread; a document naming a
    library that is not installed after [echo]; a world in which SIGINT
    arrives at the interruption point [k]; the wrapper of the unit test,
    built without metrics around an iterator that has no name. *)
Definition zero_threads_document : Document :=
  {| doc_threads := Some 0; doc_libraries := [echo_library]; doc_tasks := [t1] |}.

Definition ghost_library : LibraryConfig := {| name := "ghost"; version := "0.1" |}.

Definition ghost_document : Document :=
  {| doc_threads := None; doc_libraries := [echo_library; ghost_library];
     doc_tasks := [t1] |}.

Definition interrupted_at (k : nat) : world :=
  set_signals (fun n => if Nat.eqb n k then Some 2 else None) quiet.

Definition pool_failing_at (j : nat) : world :=
  set_pool_fault (fun n => Nat.eqb n j) quiet.

(** A task whose parameters name no library. *)
Definition t5 : TaskConfig :=
  {| id := "t5"; params := {[ "x" := VInt 5 ]}; expected_value := 1%float |}.

Definition bare_wrapper : GeneratorErrorHandler :=
  {| self_metrics := false; self_name := "generator" |}.

(** * Properties *)

Section Properties.
Context `{PyFloat}.

(** Unfolds the monadic layer down to functions on worlds. *)
Ltac step :=
  cbv [mbind M_bind bind mret M_ret ret raise try_except try_finally
       except_Exception sys_exit get_metrics put_metrics is_set set_event
       utcnow emit logging_debug logging_info logging_warning
       logging_exception update_metrics];
  cbn.

Ltac step_in H :=
  cbv [mbind M_bind bind mret M_ret ret raise try_except try_finally
       except_Exception sys_exit get_metrics put_metrics is_set set_event
       utcnow emit logging_debug logging_info logging_warning
       logging_exception update_metrics] in H;
  cbn in H.

(** The same, with the updated worlds written out as records. *)
Ltac run :=
  step;
  cbv [set_shutdown_event set_metrics set_log set_gen set_clock set_signals
       set_pool_fault];
  cbn.

(** ** The task runner *)

Lemma caught_None task libs :
  caught task libs = None <->
  exists lib v, resolves task libs lib /\ compute lib (params task) = Returns v.
Proof.
  unfold caught, resolves. split.
  - destruct (lib_name task) as [| | | |s| |] eqn:Hn; try discriminate.
    destruct (libs !! s) as [lib|] eqn:Hl; [|discriminate].
    destruct (compute lib (params task)) as [v|e] eqn:Hc; [|discriminate].
    intros _. exists lib, v. split; [exists s|]; auto.
  - intros (lib & v & (s & Hn & Hl) & Hc). rewrite Hn, Hl, Hc. reflexivity.
Qed.

Lemma caught_Some task libs :
  (exists e, caught task libs = Some e) <->
  unresolved task libs \/ exists e, compute_raises task libs e.
Proof.
  split.
  - intros [e He]. unfold caught in He.
    destruct (lib_name task) as [| | | |s| |] eqn:Hn;
      try (left; intros lib (s' & Hs' & _); congruence).
    destruct (libs !! s) as [lib|] eqn:Hl.
    + destruct (compute lib (params task)) as [v|e'] eqn:Hc; [discriminate|].
      right. exists e', lib. split; [exists s|]; auto.
    + left. intros lib (s' & Hs' & Hl'). congruence.
  - intros Hf. destruct (caught task libs) as [e|] eqn:Hc; [eauto|].
    apply caught_None in Hc as (lib & v & Hr & Hv).
    destruct Hf as [Hu | (e & lib' & (s' & Hn' & Hl') & He)].
    + destruct (Hu lib Hr).
    + destruct Hr as (s & Hn & Hl). congruence.
Qed.

Lemma process_task_success_eq task libs w lib v :
  resolves task libs lib -> compute lib (params task) = Returns v ->
  process_task task libs w = Some (Return (id task, v), after_success task w).
Proof.
  intros (s & Hn & Hl) Hc.
  unfold process_task, trace, process_task_body. run.
  rewrite Hn. run. rewrite Hl. unfold call_compute. rewrite Hc. run.
  unfold after_success. rewrite <- !app_assoc. reflexivity.
Qed.

Lemma process_task_failure_eq task libs w e :
  caught task libs = Some e ->
  process_task task libs w = Some (Return (id task, VNone), after_failure task e w).
Proof.
  unfold caught. intros He.
  unfold process_task, trace, process_task_body. run.
  destruct (lib_name task) as [| | | |s| |] eqn:Hn; run;
    try (injection He as <-; run; unfold after_failure;
         rewrite <- !app_assoc; rewrite ?Hn; reflexivity).
  destruct (libs !! s) as [lib|] eqn:Hl; run.
  - unfold call_compute.
    destruct (compute lib (params task)) as [v|e'] eqn:Hc; [discriminate|].
    injection He as <-. run. unfold after_failure.
    rewrite <- !app_assoc. reflexivity.
  - injection He as <-. run. unfold after_failure.
    rewrite <- !app_assoc. reflexivity.
Qed.

(** C3. When the capability named by the task is in the registry and its
    [compute] returns, one call of [process_task] returns the task's id
    with the computed result, adds 1 to [task_count] and to
    [success_count], appends exactly one duration sample, adds the task's
    [expected_value] to the business value and leaves [failure_count]
    alone. *)
Theorem process_task_success task libs w lib v :
  resolves task libs lib ->
  compute lib (params task) = Returns v ->
  exists w',
    process_task task libs w = Some (Return (id task, v), w') /\
    task_count (metrics w') = task_count (metrics w) + 1 /\
    success_count (metrics w') = success_count (metrics w) + 1 /\
    failure_count (metrics w') = failure_count (metrics w) /\
    durations (metrics w') =
      durations (metrics w) ++ [total_seconds (clock w 2%nat - clock w 1%nat)] /\
    business_value (metrics w') =
      fadd (business_value (metrics w)) (expected_value task).
Proof.
  intros Hr Hc. exists (after_success task w).
  split; [now apply process_task_success_eq with lib|].
  cbn. auto.
Qed.


(** C10. A call that fails, because the capability is absent or because
    [compute] raises, returns the task's id with [None] and changes only
    [task_count] and [failure_count], each by exactly 1. *)
Theorem process_task_failure_frame task libs w :
  unresolved task libs \/ (exists e, compute_raises task libs e) ->
  exists w',
    process_task task libs w = Some (Return (id task, VNone), w') /\
    task_count (metrics w') = task_count (metrics w) + 1 /\
    failure_count (metrics w') = failure_count (metrics w) + 1 /\
    success_count (metrics w') = success_count (metrics w) /\
    durations (metrics w') = durations (metrics w) /\
    business_value (metrics w') = business_value (metrics w) /\
    generator_errors (metrics w') = generator_errors (metrics w).
Proof.
  intros Hf. apply caught_Some in Hf as [e He].
  exists (after_failure task e w).
  split; [now apply process_task_failure_eq|].
  cbn. auto 6.
Qed.


(** ** The generator wrapper *)

(** C7. Called while the shutdown event is set, [__next__] raises
    [StopIteration] at once: the generator is not resumed, whatever it
    still holds, and nothing in the world changes. *)
Theorem next_stops_on_shutdown self w :
  shutdown_event w = true ->
  GeneratorErrorHandler_next self w = Some (Raise StopIteration, w).
Proof.
  intros Hs. unfold GeneratorErrorHandler_next. run. rewrite Hs. reflexivity.
Qed.


(** X10. A wrapper built without metrics still logs and re-raises an error
    of the generator, and leaves the metrics alone. *)
Lemma next_reraises_without_metrics self w e rest :
  shutdown_event w = false ->
  gen w = Throw e :: rest ->
  self_metrics self = false ->
  exists w',
    GeneratorErrorHandler_next self w = Some (Raise (Error e), w') /\
    log w' = log w ++ [generator_error_record self (Error e)] /\
    metrics w' = metrics w.
Proof.
  intros Hs Hg Hm. unfold GeneratorErrorHandler_next, next_gen. run.
  rewrite Hs, Hg. run. rewrite Hm. run.
  eexists. split; [reflexivity|]. cbn. auto.
Qed.

(** With the event clear, the wrapper hands over what the generator
    yields and signals exhaustion when the generator is exhausted. *)
Lemma next_yields self w t g :
  shutdown_event w = false ->
  gen w = Yield t :: g ->
  GeneratorErrorHandler_next self w = Some (Return t, set_gen g w).
Proof.
  intros Hs Hg. unfold GeneratorErrorHandler_next, next_gen. step.
  rewrite Hs, Hg. reflexivity.
Qed.

Lemma next_exhausted self w :
  shutdown_event w = false ->
  gen w = [] ->
  GeneratorErrorHandler_next self w = Some (Raise StopIteration, w).
Proof.
  intros Hs Hg. unfold GeneratorErrorHandler_next, next_gen. run.
  rewrite Hs, Hg. reflexivity.
Qed.

(** ** Cleanup *)

Lemma cleanup_eq w :
  cleanup w = Some (Return tt, set_log (log w ++ cleanup_records) w).
Proof. unfold cleanup. run. rewrite <- !app_assoc. reflexivity. Qed.

(** ** Configuration validation *)

Lemma size_list_to_set_le (keys : list string) :
  (size (list_to_set keys : gset string) <= length keys)%nat.
Proof.
  induction keys as [|k keys IH]; cbn.
  - rewrite size_empty. lia.
  - rewrite size_union_alt, size_singleton.
    pose proof (subseteq_size (list_to_set keys ∖ {[k]})
                  (list_to_set keys : gset string)
                  (subseteq_difference_l _ _ _ (reflexivity _))) as Hle.
    lia.
Qed.

(** Comparing the size of the set of keys with the length of the list
    detects exactly the repeated keys. *)
Lemma distinct_NoDup (keys : list string) : distinct keys = true <-> NoDup keys.
Proof.
  unfold distinct. rewrite bool_decide_eq_true. split.
  - induction keys as [|k keys IH]; intros Hsize; [constructor|].
    cbn in Hsize.
    destruct (decide (k ∈ keys)) as [Hin | Hnin].
    + exfalso.
      assert ({[k]} ∪ list_to_set keys = (list_to_set keys : gset string)) as Heq
        by (apply subseteq_union_1_L, singleton_subseteq_l, elem_of_list_to_set, Hin).
      rewrite Heq in Hsize.
      pose proof (size_list_to_set_le keys). lia.
    + constructor; [exact Hnin|]. apply IH.
      rewrite size_union, size_singleton in Hsize
        by (apply disjoint_singleton_l; rewrite elem_of_list_to_set; exact Hnin).
      lia.
  - intros Hnd. now apply size_list_to_set.
Qed.

Lemma check_unique_duplicates libs tasks :
  ~ NoDup (name <$> libs) \/ ~ NoDup (id <$> tasks) ->
  exists e, check_unique_libraries_and_tasks libs tasks = Some e /\
            err_class e = ValueError.
Proof.
  intros Hdup. unfold check_unique_libraries_and_tasks.
  destruct (distinct (name <$> libs)) eqn:Hl; cbn; [|eauto].
  destruct (distinct (id <$> tasks)) eqn:Ht; cbn; [|eauto].
  apply distinct_NoDup in Hl, Ht. tauto.
Qed.

Lemma check_unique_ok libs tasks :
  NoDup (name <$> libs) -> NoDup (id <$> tasks) ->
  check_unique_libraries_and_tasks libs tasks = None.
Proof.
  intros Hl Ht. unfold check_unique_libraries_and_tasks.
  apply distinct_NoDup in Hl, Ht. now rewrite Hl, Ht.
Qed.

(** A document with a repeated library name or task id does not parse:
    [parse_obj] raises a [ValidationError] and changes nothing. *)
Lemma parse_obj_duplicates doc w :
  ~ NoDup (name <$> doc_libraries doc) \/ ~ NoDup (id <$> doc_tasks doc) ->
  exists e,
    AppConfig_parse_obj doc w = Some (Raise (Error e), w) /\
    err_class e = ValidationError.
Proof.
  intros Hdup.
  destruct (check_unique_duplicates _ _ Hdup) as (e & He & _).
  unfold AppConfig_parse_obj. rewrite He.
  destruct (check_threads (default 4 (doc_threads doc))); cbn;
    eexists; (split; [reflexivity|reflexivity]).
Qed.

Lemma parse_obj_valid doc w :
  0 < default 4 (doc_threads doc) ->
  NoDup (name <$> doc_libraries doc) ->
  NoDup (id <$> doc_tasks doc) ->
  AppConfig_parse_obj doc w =
    Some (Return {| threads := default 4 (doc_threads doc);
                    libraries := doc_libraries doc;
                    tasks := doc_tasks doc |}, w).
Proof.
  intros Ht Hl Hi. unfold AppConfig_parse_obj, check_threads.
  rewrite (check_unique_ok _ _ Hl Hi).
  destruct (Z.ltb_spec 0 (default 4 (doc_threads doc))); [reflexivity|lia].
Qed.

(** C8. A configuration document with a repeated library name or a
    repeated task id is rejected with a [ValidationError]; the process logs
    the rejection and exits with status 1, having created no metrics,
    read no clock, resumed no generator and submitted nothing to the pool:
    no task runs. *)
Theorem duplicate_configuration_rejected doc modules w :
  ~ NoDup (name <$> doc_libraries doc) \/ ~ NoDup (id <$> doc_tasks doc) ->
  exists e,
    AppConfig_parse_obj doc w = Some (Raise (Error e), w) /\
    err_class e = ValidationError /\
    run_script doc modules w =
      Some (1, set_log (log w ++ invalid_configuration_record (Error e)
                                 :: cleanup_records)
                 (set_shutdown_event false w)).
Proof.
  intros Hdup.
  destruct (parse_obj_duplicates doc w Hdup) as (e & Hp & Hc).
  destruct (parse_obj_duplicates doc (set_shutdown_event false w) Hdup)
    as (e' & Hp' & Hc').
  assert (e' = e) as ->.
  { unfold AppConfig_parse_obj in Hp, Hp'.
    destruct (option_list _ ++ option_list _); [discriminate|].
    cbv [raise] in Hp, Hp'. congruence. }
  exists e. split; [exact Hp|]. split; [exact Hc|].
  unfold run_script, main. step. rewrite Hp'.
  destruct e as [cls txt]. cbn in Hc. subst cls. step.
  rewrite cleanup_eq. run. rewrite <- !app_assoc. reflexivity.
Qed.

(** ** Frames

    What each step of the driver leaves untouched. *)

Lemma interrupt_eq w :
  interrupt w =
    Some (Return tt,
          match signals w 0%nat with
          | Some signum =>
              set_shutdown_event true
                (set_log (log w ++ [{| lvl := WARNING;
                                       msg := {| fmt := "Received signal %d, shutting down.";
                                                 args := [AInt signum] |};
                                       exc_info := None |}])
                   (set_signals (fun n => signals w (S n)) w))
          | None => set_signals (fun n => signals w (S n)) w
          end).
Proof.
  unfold interrupt, signal_handler. destruct (signals w 0%nat); reflexivity.
Qed.

Lemma interrupt_frame w :
  exists w',
    interrupt w = Some (Return tt, w') /\
    gen w' = gen w /\ metrics w' = metrics w /\
    (shutdown_event w = true -> shutdown_event w' = true).
Proof.
  rewrite interrupt_eq. eexists. split; [reflexivity|].
  destruct (signals w 0%nat); cbn; auto.
Qed.

Lemma poll_frame w :
  exists b w',
    poll w = Some (Return b, w') /\
    b = shutdown_event w' /\
    gen w' = gen w /\ metrics w' = metrics w /\
    (shutdown_event w = true -> shutdown_event w' = true).
Proof.
  unfold poll. step.
  destruct (interrupt_frame w) as (w' & -> & Hg & Hm & Hs).
  exists (shutdown_event w'), w'. auto.
Qed.

(** The runner always returns, and touches neither the generator nor the
    event. *)
Lemma process_task_frame task libs w :
  exists out w',
    process_task task libs w = Some (Return out, w') /\
    gen w' = gen w /\ shutdown_event w' = shutdown_event w.
Proof.
  destruct (caught task libs) as [e|] eqn:Hc.
  - exists (id task, VNone), (after_failure task e w).
    split; [now apply process_task_failure_eq|]. auto.
  - apply caught_None in Hc as (lib & v & Hr & Hv).
    exists (id task, v), (after_success task w).
    split; [now apply process_task_success_eq with lib|]. auto.
Qed.

Lemma executor_submit_frame task libs w :
  exists r w',
    executor_submit (process_task task libs) w = Some (r, w') /\
    gen w' = gen w /\ shutdown_event w' = shutdown_event w.
Proof.
  unfold executor_submit. destruct (pool_fault w 0%nat).
  - eexists _, _. split; [reflexivity|]. auto.
  - destruct (process_task_frame task libs
                (set_pool_fault (fun n => pool_fault w (S n)) w))
      as (out & w' & -> & Hg & Hs).
    eexists _, _. split; [reflexivity|]. auto.
Qed.

Lemma submit_task_frame libs task futures w :
  exists r w',
    submit_task libs task futures w = Some (r, w') /\ gen w' = gen w.
Proof.
  unfold submit_task. step.
  destruct (poll_frame w) as (b & w1 & -> & _ & Hg1 & _).
  destruct b; step.
  - eexists _, _. split; [reflexivity|]. exact Hg1.
  - destruct (executor_submit_frame task libs w1) as (r & w2 & -> & Hg2 & _).
    destruct r; eexists _, _; (split; [reflexivity|]); congruence.
Qed.

(** The wrapper always answers, and an element it returns was taken from
    the generator. *)
Lemma next_frame self w :
  exists r w',
    GeneratorErrorHandler_next self w = Some (r, w') /\
    forall t, r = Return t -> (length (gen w') < length (gen w))%nat.
Proof.
  unfold GeneratorErrorHandler_next, next_gen. step.
  destruct (shutdown_event w); step.
  - eexists _, _. split; [reflexivity|]. discriminate.
  - destruct (gen w) as [|[t|e] g]; step.
    + eexists _, _. split; [reflexivity|]. discriminate.
    + eexists _, _. split; [reflexivity|]. intros _ _. cbn. lia.
    + destruct (self_metrics self); step;
        (eexists _, _; split; [reflexivity|]; discriminate).
Qed.

(** ** Termination of the submission loop

    One more iteration than the generator has resumptions left is always
    enough. *)
Lemma submission_loop_total self libs fuel :
  forall futures w,
    (length (gen w) < fuel)%nat ->
    exists r w',
      for_in fuel (interrupt;; GeneratorErrorHandler_next self)
        (submit_task libs) futures w = Some (r, w').
Proof.
  induction fuel as [|fuel IH]; intros futures w Hlen; [lia|].
  cbn [for_in]. step.
  destruct (interrupt_frame w) as (w1 & -> & Hg1 & _).
  destruct (next_frame self w1) as (r & w2 & -> & Hdec).
  destruct r as [t|e].
  - specialize (Hdec t eq_refl).
    destruct (submit_task_frame libs t futures w2) as (r & w3 & -> & Hg3).
    destruct r as [[[|] futures']|e]; eauto.
    apply IH. rewrite Hg3. rewrite Hg1 in Hdec. lia.
  - destruct e; eauto.
Qed.

Lemma submit_and_wait_total self libs fuel w :
  (length (gen w) < fuel)%nat ->
  exists r w', submit_and_wait self libs fuel w = Some (r, w').
Proof.
  intros Hlen. unfold submit_and_wait.
  destruct (submission_loop_total self libs fuel [] w Hlen) as (r & w1 & Hloop).
  step. step_in Hloop. rewrite Hloop.
  destruct r as [futures|e]; [|eauto]. cbn.
  destruct (poll_frame w1) as (b & w2 & -> & _).
  destruct b; unfold cancel_all; step; eauto.
Qed.

(** ** The [finally] block

    It logs the summary of the metrics it finds, runs the cleanup, and
    always ends in [sys.exit], with status 0 exactly when no failure was
    counted and the event is clear. *)
Lemma summarize_and_exit_eq w :
  exists w',
    summarize_and_exit w =
      Some (Raise (SystemExit
                     (if negb (failure_count (metrics w') =? 0) || shutdown_event w'
                      then 1 else 0)), w') /\
    metrics w' = metrics w /\
    gen w' = gen w /\
    In (summary_record (metrics w)) (log w') /\
    (signals w 0%nat = None ->
     shutdown_event w' = shutdown_event w /\
     log w' = log w ++ summary_record (metrics w) :: cleanup_records).
Proof.
  unfold summarize_and_exit, poll. step. rewrite cleanup_eq. step.
  destruct (failure_count (metrics w) =? 0) eqn:Hfail; step.
  - rewrite interrupt_eq. cbn.
    destruct (signals w 0%nat) eqn:Hsig; cbn;
      match goal with
      | |- exists w', Some (_, ?x) = _ /\ _ => exists x
      end;
      cbn; rewrite Hfail;
      (split; [reflexivity|]); (split; [reflexivity|]);
      (split; [reflexivity|]); split.
    + rewrite !in_app_iff. cbn. auto.
    + discriminate.
    + rewrite !in_app_iff. cbn. auto.
    + intros _. split; [reflexivity|]. rewrite <- !app_assoc. reflexivity.
  - match goal with
    | |- exists w', Some (_, ?x) = _ /\ _ => exists x
    end.
    cbn. rewrite Hfail.
    split; [reflexivity|]. split; [reflexivity|]. split; [reflexivity|]. split.
    + rewrite !in_app_iff. cbn. auto.
    + intros _. split; [reflexivity|]. rewrite <- !app_assoc. reflexivity.
Qed.

(** ** The batch

    Whatever happens in the [try] block, the status of the run is decided
    by the [finally] block alone. *)
Lemma run_batch_exit g libs w :
  exists w',
    run_batch g libs w =
      Some (Raise (SystemExit
                     (if negb (failure_count (metrics w') =? 0) || shutdown_event w'
                      then 1 else 0)), w') /\
    In (summary_record (metrics w')) (log w').
Proof.
  unfold run_batch. cbv [mbind M_bind bind put_metrics try_finally try_except].
  match goal with
  | |- context [submit_and_wait ?self libs ?fuel ?w0] =>
      destruct (submit_and_wait_total self libs fuel w0) as (r & w1 & ->);
        [cbn; lia|]
  end.
  assert (forall r' w2,
            exists w',
              match summarize_and_exit w2 with
              | Some (Return _, w'') => Some (r', w'')
              | Some (Raise e, w'') => Some (@Raise _ unit e, w'')
              | None => None
              end =
              Some (Raise (SystemExit
                             (if negb (failure_count (metrics w') =? 0)
                                 || shutdown_event w'
                              then 1 else 0)), w') /\
              In (summary_record (metrics w')) (log w')) as Hfinal.
  { intros r' w2.
    destruct (summarize_and_exit_eq w2) as (w' & -> & Hm & _ & Hin & _).
    exists w'. split; [reflexivity|]. now rewrite Hm. }
  destruct r as [[]|e]; [apply Hfinal|].
  cbv [except_Exception].
  destruct (is_Exception e);
    cbv [mbind M_bind bind logging_exception emit sys_exit raise];
    apply Hfinal.
Qed.

(** ** Loading libraries *)

Lemma load_libraries_frame modules libs :
  forall acc w,
    exists r records,
      load_libraries modules libs acc w = Some (r, set_log (log w ++ records) w) /\
      forall e, r = Raise e -> exists err, e = Error err /\ err_class err = ImportError.
Proof.
  induction libs as [|lib libs IH]; intros acc w; cbn [load_libraries].
  - exists (Return acc), []. split; [|discriminate].
    step. rewrite app_nil_r. now destruct w.
  - unfold load_precompiled_library. step.
    destruct (modules !! module_name lib) as [module|]; step.
    + match goal with
      | |- context [load_libraries modules libs ?acc' ?w'] =>
          destruct (IH acc' w') as (r & records & -> & Hr)
      end.
      eexists r, (_ :: records). split; [|exact Hr].
      cbn. rewrite <- app_assoc. reflexivity.
    + eexists _, [_]. split; [reflexivity|].
      intros e [= <-]. eauto.
Qed.

Lemma load_libraries_ok modules libs :
  (forall lib, In lib libs -> is_Some (modules !! module_name lib)) ->
  forall acc w,
    exists registry records,
      load_libraries modules libs acc w =
        Some (Return registry, set_log (log w ++ records) w).
Proof.
  induction libs as [|lib libs IH]; intros Hall acc w; cbn [load_libraries].
  - exists acc, []. step. rewrite app_nil_r. now destruct w.
  - unfold load_precompiled_library. step.
    destruct (Hall lib (or_introl eq_refl)) as [module ->]. step.
    match goal with
    | |- context [load_libraries modules libs ?acc' ?w'] =>
        destruct (IH (fun l Hl => Hall l (or_intror Hl)) acc' w')
          as (registry & records & ->)
    end.
    eexists registry, (_ :: records).
    cbn. rewrite <- app_assoc. reflexivity.
Qed.

(** ** The script *)

Lemma parse_obj_cases doc w :
  (exists cfg,
     AppConfig_parse_obj doc w = Some (Return cfg, w) /\
     libraries cfg = doc_libraries doc /\ tasks cfg = doc_tasks doc) \/
  (exists e,
     AppConfig_parse_obj doc w = Some (Raise (Error e), w) /\
     err_class e = ValidationError).
Proof.
  unfold AppConfig_parse_obj.
  destruct (option_list _ ++ option_list _).
  - left. eexists. split; [reflexivity|]. auto.
  - right. eexists. split; reflexivity.
Qed.

(** Once the configuration is accepted and the libraries are loaded,
    [main] is the batch. *)
Lemma main_valid doc modules w cfg registry w1 :
  AppConfig_parse_obj doc w = Some (Return cfg, w) ->
  load_libraries modules (libraries cfg) ∅ w = Some (Return registry, w1) ->
  main doc modules w = run_batch (task_generator (tasks cfg)) registry w1.
Proof.
  intros Hp Hl. unfold main.
  cbv [mbind M_bind bind try_except]. rewrite Hp, Hl. reflexivity.
Qed.

(** X20. The script always ends, with status 0 or 1, and status 0 is only
    given when no failure was counted and the event is clear. *)
Theorem run_script_total doc modules w :
  exists code w',
    run_script doc modules w = Some (code, w') /\
    (code = 0 \/ code = 1) /\
    (code = 0 -> failure_count (metrics w') = 0 /\ shutdown_event w' = false).
Proof.
  unfold run_script. set (w0 := set_shutdown_event false w).
  destruct (parse_obj_cases doc w0) as [(cfg & Hp & _) | (e & Hp & Hc)].
  - destruct (load_libraries_frame modules (libraries cfg) ∅ w0)
      as (r & records & Hl & Hr).
    destruct r as [registry|e].
    + rewrite (main_valid _ _ _ _ _ _ Hp Hl).
      destruct (run_batch_exit (task_generator (tasks cfg)) registry
                  (set_log (log w0 ++ records) w0)) as (w' & -> & _).
      rewrite cleanup_eq. cbn [exit_status].
      eexists _, _. split; [reflexivity|]. cbn.
      destruct (Z.eqb_spec (failure_count (metrics w')) 0) as [Hz|Hz],
               (shutdown_event w'); cbn; split; auto; intros; discriminate.
    + destruct (Hr e eq_refl) as (err & -> & _).
      unfold main. cbv [mbind M_bind bind try_except]. rewrite Hp, Hl.
      rewrite cleanup_eq. cbn.
      eexists _, _. split; [reflexivity|]. split; [auto|discriminate].
  - unfold main. cbv [mbind M_bind bind try_except]. rewrite Hp.
    destruct e as [cls txt]. cbn in Hc. subst cls. step.
    rewrite cleanup_eq. cbn.
    eexists _, _. split; [reflexivity|]. split; [auto|discriminate].
Qed.

(** X19. For a run that gets as far as the batch, the status is 0 exactly when
    no failure was counted and the event is clear, whether or not the
    [try] block ended in a fatal error. *)
Theorem exit_status_policy doc modules w cfg registry w1 :
  AppConfig_parse_obj doc (set_shutdown_event false w) =
    Some (Return cfg, set_shutdown_event false w) ->
  load_libraries modules (libraries cfg) ∅ (set_shutdown_event false w) =
    Some (Return registry, w1) ->
  exists code w',
    run_script doc modules w = Some (code, w') /\
    (code = 0 <-> failure_count (metrics w') = 0 /\ shutdown_event w' = false).
Proof.
  intros Hp Hl. unfold run_script.
  rewrite (main_valid _ _ _ _ _ _ Hp Hl).
  destruct (run_batch_exit (task_generator (tasks cfg)) registry w1)
    as (w' & -> & _).
  rewrite cleanup_eq. cbn [exit_status].
  eexists _, _. split; [reflexivity|]. cbn.
  destruct (Z.eqb_spec (failure_count (metrics w')) 0) as [Hz|Hz],
           (shutdown_event w'); cbn; split; try tauto;
    try discriminate; intros [? ?]; try discriminate; congruence.
Qed.

(** A batch without tasks, when no signal arrives and the event is clear:
    the generator is exhausted at once, nothing is submitted, and the run
    exits with status 0. *)
Lemma run_batch_empty libs w :
  shutdown_event w = false ->
  (forall n, signals w n = None) ->
  run_batch [] libs w =
    Some (Raise (SystemExit 0),
          {| shutdown_event := false;
             metrics := initial_metrics;
             log := log w ++ summary_record initial_metrics :: cleanup_records;
             gen := [];
             clock := clock w;
             signals := fun n => signals w (3 + n)%nat;
             pool_fault := pool_fault w |}).
Proof.
  intros Hs Hsig.
  unfold run_batch, submit_and_wait, summarize_and_exit, poll. cbn [length for_in].
  unfold GeneratorErrorHandler_next, next_gen, cleanup, wait.
  step.
  repeat (first [rewrite interrupt_eq | rewrite Hsig | rewrite Hs]; run).
  rewrite <- !app_assoc. reflexivity.
Qed.

(** C9. A valid configuration without tasks, whose libraries all load,
    run while no signal arrives: the run ends with [task_count] 0, no
    success, no failure, a reported average duration of 0, the event
    clear and exit status 0. *)
Theorem empty_batch_exits_zero doc modules w :
  doc_tasks doc = [] ->
  0 < default 4 (doc_threads doc) ->
  NoDup (name <$> doc_libraries doc) ->
  (forall lib, In lib (doc_libraries doc) -> is_Some (modules !! module_name lib)) ->
  (forall n, signals w n = None) ->
  exists w',
    run_script doc modules w = Some (0, w') /\
    task_count (metrics w') = 0 /\
    success_count (metrics w') = 0 /\
    failure_count (metrics w') = 0 /\
    avg_time (metrics w') = PyInt 0 /\
    In (summary_record (metrics w')) (log w') /\
    shutdown_event w' = false.
Proof.
  intros Ht Hthreads Hnames Hload Hsig.
  assert (NoDup (id <$> doc_tasks doc)) as Hids by (rewrite Ht; constructor).
  set (w0 := set_shutdown_event false w).
  pose proof (parse_obj_valid doc w0 Hthreads Hnames Hids) as Hp.
  destruct (load_libraries_ok modules (doc_libraries doc) Hload ∅ w0)
    as (registry & records & Hl).
  unfold run_script. fold w0.
  rewrite (main_valid _ _ _ _ _ _ Hp Hl). cbn [tasks]. rewrite Ht.
  change (task_generator []) with (@nil gen_event).
  rewrite run_batch_empty by (cbn; auto).
  rewrite cleanup_eq. cbn.
  eexists. split; [reflexivity|]. cbn.
  repeat (split; [reflexivity|]). split; [|reflexivity].
  rewrite !in_app_iff. cbn. auto.
Qed.

(** * Further properties *)

(** ** The validator and the parser *)

Lemma check_unique_None libs tasks :
  check_unique_libraries_and_tasks libs tasks = None ->
  NoDup (name <$> libs) /\ NoDup (id <$> tasks).
Proof.
  intros Hnone.
  destruct (decide (NoDup (name <$> libs))) as [Hl|Hl],
           (decide (NoDup (id <$> tasks))) as [Ht|Ht]; [auto|..];
    (destruct (check_unique_duplicates libs tasks) as (e & He & _);
     [tauto|congruence]).
Qed.

(** X1. The root validator passes exactly the configurations whose library
    names are pairwise distinct and whose task ids are pairwise distinct. *)
Theorem check_unique_exact libs tasks :
  check_unique_libraries_and_tasks libs tasks = None <->
  NoDup (name <$> libs) /\ NoDup (id <$> tasks).
Proof.
  split.
  - apply check_unique_None.
  - intros [Hl Ht]. now apply check_unique_ok.
Qed.

(** When both kinds of duplicates are present, the library names are the
    ones reported. *)
Lemma check_unique_reports_libraries_first libs tasks :
  ~ NoDup (name <$> libs) ->
  check_unique_libraries_and_tasks libs tasks =
    Some {| err_class := ValueError;
            err_text := {| fmt := "Duplicate library names in configuration";
                           args := [] |} |}.
Proof.
  intros Hl. unfold check_unique_libraries_and_tasks.
  destruct (distinct (name <$> libs)) eqn:Hd; [|reflexivity].
  apply distinct_NoDup in Hd. tauto.
Qed.

Lemma parse_obj_rejects doc w :
  ~ (0 < default 4 (doc_threads doc) /\
     NoDup (name <$> doc_libraries doc) /\
     NoDup (id <$> doc_tasks doc)) ->
  exists e,
    AppConfig_parse_obj doc w = Some (Raise (Error e), w) /\
    err_class e = ValidationError.
Proof.
  intros Hinvalid.
  destruct (parse_obj_cases doc w) as [(cfg & Hp & _) | Hraise]; [|exact Hraise].
  exfalso. apply Hinvalid.
  unfold AppConfig_parse_obj, check_threads in Hp.
  destruct (Z.ltb_spec 0 (default 4 (doc_threads doc))) as [Ht|Ht];
    [|discriminate].
  destruct (check_unique_libraries_and_tasks _ _) eqn:Hu; [discriminate|].
  apply check_unique_None in Hu. tauto.
Qed.

(** X2. [parse_obj] returns a configuration exactly for the documents with a
    positive thread count (4 when none is given), distinct library names
    and distinct task ids, and the configuration carries the document's
    libraries and tasks unchanged; every other document gets a
    [ValidationError]. Parsing changes nothing in either case. *)
Theorem parse_obj_accepts_exactly doc w :
  (0 < default 4 (doc_threads doc) /\
   NoDup (name <$> doc_libraries doc) /\
   NoDup (id <$> doc_tasks doc)) /\
  AppConfig_parse_obj doc w =
    Some (Return {| threads := default 4 (doc_threads doc);
                    libraries := doc_libraries doc;
                    tasks := doc_tasks doc |}, w)
  \/
  ~ (0 < default 4 (doc_threads doc) /\
     NoDup (name <$> doc_libraries doc) /\
     NoDup (id <$> doc_tasks doc)) /\
  exists e,
    AppConfig_parse_obj doc w = Some (Raise (Error e), w) /\
    err_class e = ValidationError.
Proof.
  destruct (Z.ltb_spec 0 (default 4 (doc_threads doc))) as [Ht|Ht].
  - destruct (decide (NoDup (name <$> doc_libraries doc))) as [Hl|Hl].
    + destruct (decide (NoDup (id <$> doc_tasks doc))) as [Hi|Hi].
      * left. split; [auto|]. now apply parse_obj_valid.
      * right. split; [tauto|]. apply parse_obj_rejects. tauto.
    + right. split; [tauto|]. apply parse_obj_rejects. tauto.
  - right. split; [intros (Hpos & _); lia|]. apply parse_obj_rejects.
    intros (Hpos & _). lia.
Qed.

(** ** One call of the runner, in one equation *)

Lemma process_task_eq task libs w :
  process_task task libs w =
    Some (Return (id task, returned task libs), after_task libs task w).
Proof.
  unfold after_task, returned.
  destruct (caught task libs) as [e|] eqn:Hc.
  - rewrite (process_task_failure_eq _ _ _ _ Hc). do 3 f_equal.
    unfold caught in Hc.
    destruct (lib_name task) as [| | | |s| |]; try reflexivity.
    destruct (libs !! s) as [lib|]; [|reflexivity].
    destruct (compute lib (params task)); [discriminate|reflexivity].
  - pose proof Hc as Hc'. apply caught_None in Hc' as (lib & v & Hr & Hv).
    rewrite (process_task_success_eq _ _ _ _ _ Hr Hv). do 3 f_equal.
    destruct Hr as (s & -> & ->). now rewrite Hv.
Qed.

(** The runner keeps the counters consistent. *)
Lemma after_task_consistent libs task w :
  consistent (metrics w) -> consistent (metrics (after_task libs task w)).
Proof.
  unfold consistent, after_task. intros (Ht & Hs & Hf).
  destruct (caught task libs); cbn; rewrite ?length_app; cbn; lia.
Qed.

Lemma after_task_generator_errors libs task w :
  generator_errors (metrics (after_task libs task w)) =
  generator_errors (metrics w).
Proof. unfold after_task. now destruct (caught task libs). Qed.

Lemma after_task_same_work libs task w1 w2 :
  same_work w1 w2 -> same_work (after_task libs task w1) (after_task libs task w2).
Proof.
  unfold same_work, after_task. intros (Hm & Hl & Hc).
  destruct (caught task libs); cbn; rewrite Hm, Hl, Hc; auto.
Qed.

Lemma after_tasks_same_work libs tasks :
  forall w1 w2,
    same_work w1 w2 ->
    same_work (after_tasks libs tasks w1) (after_tasks libs tasks w2).
Proof.
  induction tasks as [|task tasks IH]; intros w1 w2 Hw; [exact Hw|].
  cbn. apply IH. now apply after_task_same_work.
Qed.

(** What the calls for a list of tasks add up to. *)
Lemma after_tasks_counts libs tasks :
  forall w,
    task_count (metrics (after_tasks libs tasks w)) =
      task_count (metrics w) + Z.of_nat (length tasks) /\
    success_count (metrics (after_tasks libs tasks w)) =
      success_count (metrics w) + Z.of_nat (length (List.filter (succeeds libs) tasks)) /\
    failure_count (metrics (after_tasks libs tasks w)) =
      failure_count (metrics w) + Z.of_nat (length (List.filter (fails libs) tasks)) /\
    business_value (metrics (after_tasks libs tasks w)) =
      fold_left fadd (expected_value <$> List.filter (succeeds libs) tasks)
        (business_value (metrics w)) /\
    length (durations (metrics (after_tasks libs tasks w))) =
      (length (durations (metrics w)) +
       length (List.filter (succeeds libs) tasks))%nat /\
    generator_errors (metrics (after_tasks libs tasks w)) =
      generator_errors (metrics w).
Proof.
  induction tasks as [|task tasks IH]; intros w.
  - cbn. repeat split; lia.
  - cbn [after_tasks fold_left]. fold (after_tasks libs tasks (after_task libs task w)).
    destruct (IH (after_task libs task w)) as (Ht & Hs & Hf & Hb & Hd & Hg).
    rewrite Ht, Hs, Hf, Hb, Hd, Hg. clear IH Ht Hs Hf Hb Hd Hg.
    unfold fails, succeeds, after_task.
    destruct (caught task libs) eqn:Hc; cbn; rewrite ?Hc; cbn;
      rewrite ?length_app; cbn; repeat split; lia.
Qed.

(** ** Steps of the submission loop *)

Lemma interrupt_quiet w :
  signals w 0%nat = None ->
  interrupt w = Some (Return tt, set_signals (fun n => signals w (S n)) w).
Proof. intros Hs. rewrite interrupt_eq, Hs. reflexivity. Qed.

Lemma interrupt_signalled w signum :
  signals w 0%nat = Some signum ->
  interrupt w =
    Some (Return tt,
          set_shutdown_event true
            (set_log (log w ++ [signal_record signum])
               (set_signals (fun n => signals w (S n)) w))).
Proof. intros Hs. rewrite interrupt_eq, Hs. reflexivity. Qed.

Lemma for_in_unfold {A S} fuel (next : M A) (body : A -> S -> M (flow * S)) acc w :
  for_in (Datatypes.S fuel) next body acc w =
    match next w with
    | None => None
    | Some (Raise StopIteration, w') => Some (Return acc, w')
    | Some (Raise e, w') => Some (Raise e, w')
    | Some (Return x, w') =>
        match body x acc w' with
        | None => None
        | Some (Raise e, w'') => Some (Raise e, w'')
        | Some (Return (Break, acc'), w'') => Some (Return acc', w'')
        | Some (Return (Continue, acc'), w'') => for_in fuel next body acc' w''
        end
    end.
Proof. reflexivity. Qed.

Lemma next_shutdown self w :
  shutdown_event w = true ->
  GeneratorErrorHandler_next self w = Some (Raise StopIteration, w).
Proof.
  intros He. unfold GeneratorErrorHandler_next. step. now rewrite He.
Qed.

Lemma next_error self w e rest :
  shutdown_event w = false ->
  gen w = Throw e :: rest ->
  self_metrics self = true ->
  GeneratorErrorHandler_next self w =
    Some (Raise (Error e),
          set_metrics (incr_generator_errors (metrics w))
            (set_log (log w ++ [generator_error_record self (Error e)])
               (set_gen [] w))).
Proof.
  intros He Hg Hm. unfold GeneratorErrorHandler_next, next_gen. step.
  rewrite He, Hg. step. rewrite Hm. reflexivity.
Qed.

(** Pulling from the task stream at an interruption point. *)
Lemma pull_eq self w :
  (interrupt ≫= λ _ : (), GeneratorErrorHandler_next self) w =
    match interrupt w with
    | Some (Return _, w') => GeneratorErrorHandler_next self w'
    | Some (Raise e, w') => Some (Raise e, w')
    | None => None
    end.
Proof. reflexivity. Qed.

(** With no signal pending, the event clear and the pool willing, the loop
    body runs the task and goes on. *)
Lemma submit_task_quiet libs task futures w :
  shutdown_event w = false ->
  signals w 0%nat = None ->
  pool_fault w 0%nat = false ->
  submit_task libs task futures w =
    Some (Return (Continue, futures ++ [Return (id task, returned task libs)]),
          after_task libs task
            (set_pool_fault (fun n => pool_fault w (S n))
               (set_signals (fun n => signals w (S n)) w))).
Proof.
  intros He Hs Hp. unfold submit_task, poll. step.
  rewrite (interrupt_quiet _ Hs). cbn. rewrite He. step.
  unfold executor_submit. cbn. rewrite Hp. rewrite process_task_eq. reflexivity.
Qed.

(** With a signal pending, the loop body breaks without submitting. *)
Lemma submit_task_signalled libs task futures w signum :
  signals w 0%nat = Some signum ->
  submit_task libs task futures w =
    Some (Return (Break, futures),
          set_shutdown_event true
            (set_log (log w ++ [signal_record signum])
               (set_signals (fun n => signals w (S n)) w))).
Proof.
  intros Hs. unfold submit_task, poll. step.
  rewrite (interrupt_signalled _ _ Hs). reflexivity.
Qed.

(** ** A run that nothing disturbs

    No signal, a willing pool: the loop submits every task of the
    generator, in order. *)
Lemma submission_loop_all self libs tasks :
  forall futures w,
    gen w = task_generator tasks ->
    shutdown_event w = false ->
    (forall n, signals w n = None) ->
    (forall n, pool_fault w n = false) ->
    exists futures' w',
      for_in (S (length tasks)) (interrupt ≫= λ _ : (), GeneratorErrorHandler_next self)
        (submit_task libs) futures w = Some (Return futures', w') /\
      same_work w' (after_tasks libs tasks w) /\
      gen w' = [] /\
      shutdown_event w' = false /\
      (forall n, signals w' n = None) /\
      (forall n, pool_fault w' n = false).
Proof.
  induction tasks as [|task tasks IH]; intros futures w Hg He Hs Hp.
  - rewrite for_in_unfold, pull_eq, (interrupt_quiet _ (Hs 0%nat)).
    rewrite next_exhausted by (cbn; auto).
    eexists _, _. split; [reflexivity|]. cbn.
    repeat split; auto.
  - cbn [length]. rewrite for_in_unfold, pull_eq, (interrupt_quiet _ (Hs 0%nat)).
    rewrite (next_yields _ _ task (task_generator tasks)) by (cbn; auto).
    rewrite submit_task_quiet by (cbn; auto).
    match goal with
    | |- context [for_in _ _ _ ?futures1 ?w1] =>
        destruct (IH futures1 w1) as (futures' & w' & -> & Hw & Hg' & He' & Hs' & Hp')
    end.
    + unfold after_task. now destruct (caught task libs).
    + unfold after_task. destruct (caught task libs); cbn; exact He.
    + intros n. unfold after_task. destruct (caught task libs); cbn; apply Hs.
    + intros n. unfold after_task. destruct (caught task libs); cbn; apply Hp.
    + eexists _, _. split; [reflexivity|].
      split; [|auto].
      destruct Hw as (Hm & Hl & Hc).
      cbn [after_tasks fold_left]. fold (after_tasks libs tasks (after_task libs task w)).
      match type of Hm with
      | _ = metrics (after_tasks _ _ ?wa) =>
          destruct (after_tasks_same_work libs tasks wa (after_task libs task w))
            as (Hm2 & Hl2 & Hc2)
      end.
      * apply after_task_same_work. repeat split.
      * repeat split; congruence.
Qed.

Lemma submit_and_wait_all self libs tasks w :
  gen w = task_generator tasks ->
  shutdown_event w = false ->
  (forall n, signals w n = None) ->
  (forall n, pool_fault w n = false) ->
  exists w',
    submit_and_wait self libs (S (length tasks)) w = Some (Return tt, w') /\
    same_work w' (after_tasks libs tasks w) /\
    shutdown_event w' = false /\
    (forall n, signals w' n = None).
Proof.
  intros Hg He Hs Hp. unfold submit_and_wait.
  destruct (submission_loop_all self libs tasks [] w Hg He Hs Hp)
    as (futures & w1 & Hloop & Hw & _ & He1 & Hs1 & _).
  cbv [mbind M_bind bind] in Hloop |- *. rewrite Hloop. cbn.
  unfold poll. cbv [mbind M_bind bind]. rewrite (interrupt_quiet _ (Hs1 0%nat)).
  cbn. rewrite He1. cbn.
  eexists. split; [reflexivity|]. cbn. auto.
Qed.

(** When the [try] block of the batch returns, the [finally] block
    decides the outcome. *)
Lemma run_batch_returns g libs w w1 e w' :
  submit_and_wait {| self_metrics := true; self_name := "task_generator" |} libs
    (S (length g)) (set_gen g (set_metrics initial_metrics w)) = Some (Return tt, w1) ->
  summarize_and_exit w1 = Some (Raise e, w') ->
  run_batch g libs w = Some (Raise e, w').
Proof.
  intros Hbody Hfinal. unfold run_batch.
  cbv [mbind M_bind bind put_metrics try_finally try_except].
  rewrite Hbody, Hfinal. reflexivity.
Qed.

Lemma no_failure_iff_all_succeed libs tasks :
  (Z.of_nat (length (List.filter (fails libs) tasks)) =? 0) =
  forallb (succeeds libs) tasks.
Proof.
  induction tasks as [|task tasks IH]; [reflexivity|].
  cbn. unfold fails at 1. destruct (succeeds libs task); cbn; [exact IH|].
  reflexivity.
Qed.

Lemma run_batch_undisturbed tasks libs w :
  shutdown_event w = false ->
  (forall n, signals w n = None) ->
  (forall n, pool_fault w n = false) ->
  exists w',
    run_batch (task_generator tasks) libs w =
      Some (Raise (SystemExit (if forallb (succeeds libs) tasks then 0 else 1)), w') /\
    metrics w' =
      metrics (after_tasks libs tasks
                 (set_gen (task_generator tasks) (set_metrics initial_metrics w))) /\
    shutdown_event w' = false.
Proof.
  intros He Hs Hp.
  set (w0 := set_gen (task_generator tasks) (set_metrics initial_metrics w)).
  destruct (submit_and_wait_all
              {| self_metrics := true; self_name := "task_generator" |}
              libs tasks w0) as (w1 & Hbody & (Hm & _ & _) & He1 & Hs1);
    try (cbn; auto; fail).
  destruct (summarize_and_exit_eq w1) as (w' & Hfinal & Hm' & _ & _ & Hquiet).
  destruct (Hquiet (Hs1 0%nat)) as (He' & _).
  destruct (after_tasks_counts libs tasks w0) as (_ & _ & Hf & _).
  assert (metrics w' = metrics (after_tasks libs tasks w0)) as Hmw by congruence.
  exists w'. split; [|split; congruence].
  assert (length (task_generator tasks) = length tasks) as Hlen
    by apply length_fmap.
  erewrite run_batch_returns; [|rewrite Hlen; exact Hbody|exact Hfinal].
  rewrite Hmw, Hf, He', He1. cbn.
  rewrite Z.add_0_l, no_failure_iff_all_succeed.
  now destruct (forallb (succeeds libs) tasks).
Qed.


(** ** Shutdown during submission

    The main thread can be interrupted twice per task: before it pulls the
    task from the stream and before it submits it. A signal delivered at
    point [k] lets the first [k / 2] tasks run and no other. *)
Lemma submission_loop_cancelled self libs :
  forall tasks k futures w signum,
    gen w = task_generator tasks ->
    shutdown_event w = false ->
    (forall n, pool_fault w n = false) ->
    signals w k = Some signum ->
    (forall i, (i < k)%nat -> signals w i = None) ->
    (k < 2 * length tasks)%nat ->
    exists futures' w',
      for_in (S (length tasks)) (interrupt ≫= λ _ : (), GeneratorErrorHandler_next self)
        (submit_task libs) futures w = Some (Return futures', w') /\
      metrics w' = metrics (after_tasks libs (take (Nat.div2 k) tasks) w) /\
      shutdown_event w' = true.
Proof.
  intros tasks.
  induction tasks as [|task tasks IH]; intros k futures w signum Hg He Hp Hk Hbefore Hlt;
    [cbn in Hlt; lia|].
  cbn [length]. rewrite for_in_unfold, pull_eq.
  destruct k as [|[|k]].
  - rewrite (interrupt_signalled _ _ Hk).
    rewrite next_shutdown by reflexivity.
    eexists _, _. split; [reflexivity|]. cbn. auto.
  - rewrite (interrupt_quiet _ (Hbefore 0%nat ltac:(lia))).
    rewrite (next_yields _ _ task (task_generator tasks)) by (cbn; auto).
    erewrite submit_task_signalled by (cbn; exact Hk).
    eexists _, _. split; [reflexivity|]. cbn. auto.
  - rewrite (interrupt_quiet _ (Hbefore 0%nat ltac:(lia))).
    rewrite (next_yields _ _ task (task_generator tasks)) by (cbn; auto).
    rewrite submit_task_quiet
      by (cbn; auto; apply (Hbefore 1%nat); lia).
    match goal with
    | |- context [for_in _ _ _ ?futures1 ?w1] =>
        destruct (IH k futures1 w1 signum)
          as (futures' & w' & -> & Hm & He'); [..|set (wa := w1) in *]
    end.
    + unfold after_task. now destruct (caught task libs).
    + unfold after_task. destruct (caught task libs); cbn; exact He.
    + intros n. unfold after_task. destruct (caught task libs); cbn; apply Hp.
    + unfold after_task. destruct (caught task libs); cbn; exact Hk.
    + intros i Hi. unfold after_task.
      destruct (caught task libs); cbn; apply Hbefore; lia.
    + cbn in Hlt. lia.
    + eexists _, _. split; [reflexivity|]. split; [|exact He'].
      rewrite Hm. cbn [Nat.div2 take after_tasks fold_left].
      fold (after_tasks libs (take (Nat.div2 k) tasks) wa).
      fold (after_tasks libs (take (Nat.div2 k) tasks) (after_task libs task w)).
      apply after_tasks_same_work, after_task_same_work. repeat split.
Qed.

(** Once the event is set, the [finally] block exits with status 1. *)
Lemma summarize_and_exit_shutdown w :
  shutdown_event w = true ->
  exists w',
    summarize_and_exit w = Some (Raise (SystemExit 1), w') /\
    metrics w' = metrics w /\
    shutdown_event w' = true.
Proof.
  intros He. unfold summarize_and_exit. step. rewrite cleanup_eq. step.
  destruct (failure_count (metrics w) =? 0); step.
  - match goal with
    | |- context [poll ?w1] =>
        destruct (poll_frame w1) as (b & w2 & -> & -> & _ & Hm & Hs)
    end.
    rewrite (Hs He). eexists. split; [reflexivity|]. rewrite Hm. auto.
  - eexists. split; [reflexivity|]. auto.
Qed.


(** ** Counters that always agree *)

Lemma initial_metrics_consistent : consistent initial_metrics.
Proof. unfold consistent. cbn. lia. Qed.

Lemma next_metrics self w r w' :
  GeneratorErrorHandler_next self w = Some (r, w') ->
  metrics w' = metrics w \/
  metrics w' = incr_generator_errors (metrics w) /\ exists e, r = Raise (Error e).
Proof.
  unfold GeneratorErrorHandler_next, next_gen. step.
  destruct (shutdown_event w); step; [intros [= <- <-]; auto|].
  destruct (gen w) as [|[t|e] g]; step; try (intros [= <- <-]; auto).
  destruct (self_metrics self); step; intros [= <- <-]; cbn; eauto.
Qed.

Lemma submit_task_metrics libs task futures w r w' :
  submit_task libs task futures w = Some (r, w') ->
  consistent (metrics w) ->
  consistent (metrics w') /\
  generator_errors (metrics w') = generator_errors (metrics w).
Proof.
  unfold submit_task. step.
  destruct (poll_frame w) as (b & w1 & -> & _ & _ & Hm1 & _).
  destruct b; step; [intros [= <- <-] Hc; now rewrite Hm1|].
  unfold executor_submit. destruct (pool_fault w1 0%nat).
  - intros [= <- <-] Hc. cbn. now rewrite Hm1.
  - rewrite process_task_eq. cbn. intros [= <- <-] Hc. split.
    + apply after_task_consistent. cbn. now rewrite Hm1.
    + rewrite after_task_generator_errors. cbn. now rewrite Hm1.
Qed.

Lemma submission_loop_consistent self libs fuel :
  forall futures w r w',
    for_in fuel (interrupt ≫= λ _ : (), GeneratorErrorHandler_next self)
      (submit_task libs) futures w = Some (r, w') ->
    consistent (metrics w) ->
    generator_errors (metrics w) = None ->
    consistent (metrics w') /\
    (generator_errors (metrics w') = None \/
     generator_errors (metrics w') = Some 1 /\ exists e, r = Raise (Error e)).
Proof.
  induction fuel as [|fuel IH]; intros futures w r w' Hrun Hc Hg; [discriminate|].
  rewrite for_in_unfold, pull_eq in Hrun.
  destruct (interrupt_frame w) as (w1 & Hi & _ & Hm1 & _). rewrite Hi in Hrun.
  destruct (GeneratorErrorHandler_next self w1) as [[r2 w2]|] eqn:Hnext;
    [|discriminate].
  destruct (next_metrics _ _ _ _ Hnext) as [Hm2 | (Hm2 & e & ->)].
  - assert (consistent (metrics w2) /\ generator_errors (metrics w2) = None)
      as [Hc2 Hg2] by (rewrite Hm2, Hm1; auto).
    destruct r2 as [task|e].
    + destruct (submit_task libs task futures w2) as [[r3 w3]|] eqn:Hbody;
        [|discriminate].
      destruct (submit_task_metrics _ _ _ _ _ _ Hbody Hc2) as [Hc3 Hg3].
      rewrite Hg2 in Hg3.
      destruct r3 as [[[|] futures']|e].
      * now apply (IH futures' w3).
      * injection Hrun as <- <-. auto.
      * injection Hrun as <- <-. auto.
    + destruct e; injection Hrun as <- <-; auto.
  - injection Hrun as <- <-. rewrite Hm2, Hm1. split.
    + destruct Hc as (Ht & Hs & Hf). unfold consistent. cbn. auto.
    + right. cbn. rewrite Hg. eauto.
Qed.

(** How the batch ends: the [try] block gives some outcome, the handler
    and the [finally] block leave the metrics as the [try] block left
    them, and the run ends in [sys.exit]. *)
Lemma run_batch_cases g libs w :
  exists r1 w1 code w',
    submit_and_wait {| self_metrics := true; self_name := "task_generator" |} libs
      (S (length g)) (set_gen g (set_metrics initial_metrics w)) = Some (r1, w1) /\
    run_batch g libs w = Some (Raise (SystemExit code), w') /\
    metrics w' = metrics w1.
Proof.
  destruct (submit_and_wait_total
              {| self_metrics := true; self_name := "task_generator" |} libs
              (S (length g)) (set_gen g (set_metrics initial_metrics w)))
    as (r1 & w1 & Hbody); [cbn; lia|].
  exists r1, w1.
  cut (exists code w',
         run_batch g libs w = Some (Raise (SystemExit code), w') /\
         metrics w' = metrics w1).
  { intros (code & w' & Hrun & Hm). exists code, w'. auto. }
  unfold run_batch.
  cbv [mbind M_bind bind put_metrics try_finally try_except]. rewrite Hbody.
  assert (forall (r' : result ()) w2,
            metrics w2 = metrics w1 ->
            exists code w',
              match summarize_and_exit w2 with
              | Some (Return _, w'') => Some (r', w'')
              | Some (Raise e, w'') => Some (@Raise _ unit e, w'')
              | None => None
              end = Some (Raise (SystemExit code), w') /\
              metrics w' = metrics w1) as Hfinal.
  { intros r' w2 Hm2.
    destruct (summarize_and_exit_eq w2) as (w' & -> & Hm & _).
    eexists _, w'. split; [reflexivity|]. congruence. }
  destruct r1 as [[]|e]; [now apply Hfinal|].
  cbv [except_Exception].
  destruct (is_Exception e);
    cbv [mbind M_bind bind logging_exception emit sys_exit raise];
    now apply Hfinal.
Qed.

Lemma submit_and_wait_consistent self libs fuel w r w' :
  submit_and_wait self libs fuel w = Some (r, w') ->
  consistent (metrics w) ->
  generator_errors (metrics w) = None ->
  consistent (metrics w') /\
  (generator_errors (metrics w') = None \/ generator_errors (metrics w') = Some 1).
Proof.
  unfold submit_and_wait. cbv [mbind M_bind bind]. intros Hrun Hc Hg.
  destruct (for_in fuel _ (submit_task libs) [] w) as [[r1 w1]|] eqn:Hloop;
    [|discriminate].
  destruct (submission_loop_consistent self libs fuel [] w r1 w1 Hloop Hc Hg)
    as (Hc1 & Hg1).
  destruct r1 as [futures|e].
  - cbn in Hrun.
    destruct (poll_frame w1) as (b & w2 & Hp & _ & _ & Hm2 & _).
    rewrite Hp in Hrun.
    destruct Hg1 as [Hg1 | (_ & e & He)]; [|discriminate].
    destruct b; injection Hrun as <- <-; cbn; rewrite Hm2; auto.
  - injection Hrun as <- <-. split; [exact Hc1|]. tauto.
Qed.


(** ** Loading the libraries *)

Lemma load_libraries_loaded modules libs :
  (forall lib, In lib libs -> is_Some (modules !! module_name lib)) ->
  forall acc w,
    exists registry,
      load_libraries modules libs acc w =
        Some (Return registry,
              set_log (log w ++ (library_loaded_record <$> libs)) w) /\
      (forall lib, In lib libs -> NoDup (name <$> libs) ->
                   registry !! name lib = modules !! module_name lib) /\
      (forall key, ~ In key (name <$> libs) -> registry !! key = acc !! key).
Proof.
  induction libs as [|lib libs IH]; intros Hall acc w; cbn [load_libraries].
  - exists acc. split; [|split; [intros ? []|auto]].
    step. rewrite app_nil_r. now destruct w.
  - unfold load_precompiled_library. step.
    destruct (Hall lib (or_introl eq_refl)) as [module Hmod]. rewrite Hmod. step.
    match goal with
    | |- context [load_libraries modules libs ?acc' ?w'] =>
        destruct (IH (fun l Hl => Hall l (or_intror Hl)) acc' w')
          as (registry & -> & Hin & Hout)
    end.
    exists registry. split; [|split].
    + cbn. rewrite <- app_assoc. reflexivity.
    + intros lib' [<- | Hl] Hnd; apply NoDup_cons in Hnd as [Hfresh Hnd].
      * rewrite Hout, lookup_insert_eq by (now rewrite <- list_elem_of_In).
        now rewrite Hmod.
      * now apply Hin.
    + intros key Hkey. cbn in Hkey.
      rewrite Hout by tauto. apply lookup_insert_ne. tauto.
Qed.

(** X4. When every configured library can be imported, the registry built by
    [main] maps each library's name to the module imported under
    [name_v] followed by the version with its dots replaced, holds nothing
    else, and one record per library is logged, in order. *)
Theorem registry_maps_names_to_modules modules libs w :
  NoDup (name <$> libs) ->
  (forall lib, In lib libs -> is_Some (modules !! module_name lib)) ->
  exists registry,
    load_libraries modules libs ∅ w =
      Some (Return registry, set_log (log w ++ (library_loaded_record <$> libs)) w) /\
    (forall lib, In lib libs -> registry !! name lib = modules !! module_name lib) /\
    (forall key, ~ In key (name <$> libs) -> registry !! key = None).
Proof.
  intros Hnd Hall.
  destruct (load_libraries_loaded modules libs Hall ∅ w) as (registry & Hl & Hin & Hout).
  exists registry. split; [exact Hl|]. split; [auto|].
  intros key Hkey. rewrite Hout by exact Hkey. apply lookup_empty.
Qed.

(** The first library that cannot be imported stops the loading: the
    libraries before it are loaded, the failure is logged and the
    [ImportError] is raised. *)
Lemma load_libraries_missing modules before lib after :
  (forall l, In l before -> is_Some (modules !! module_name l)) ->
  modules !! module_name lib = None ->
  forall acc w,
    load_libraries modules (before ++ lib :: after) acc w =
      Some (Raise (import_error lib),
            set_log (log w ++ (library_loaded_record <$> before)
                           ++ [library_failed_record lib]) w).
Proof.
  intros Hall Hmiss.
  induction before as [|l before IH]; intros acc w; cbn [app load_libraries].
  - unfold load_precompiled_library. step. rewrite Hmiss. reflexivity.
  - unfold load_precompiled_library. step.
    destruct (Hall l (or_introl eq_refl)) as [module ->]. step.
    rewrite IH by (intros; apply Hall; now right).
    cbn. rewrite <- app_assoc. reflexivity.
Qed.


(** X3. Any document that [parse_obj] rejects ends the process with status 1
    before anything else happens. *)
Theorem invalid_configuration_exits_one doc modules w :
  ~ (0 < default 4 (doc_threads doc) /\
     NoDup (name <$> doc_libraries doc) /\
     NoDup (id <$> doc_tasks doc)) ->
  exists e,
    err_class e = ValidationError /\
    run_script doc modules w =
      Some (1, set_log (log w ++ invalid_configuration_record (Error e)
                                 :: cleanup_records)
                 (set_shutdown_event false w)).
Proof.
  intros Hinvalid.
  destruct (parse_obj_rejects doc (set_shutdown_event false w) Hinvalid)
    as (e & Hp & Hc).
  exists e. split; [exact Hc|].
  unfold run_script, main. cbv [mbind M_bind bind try_except]. rewrite Hp.
  destruct e as [cls txt]. cbn in Hc. subst cls. step.
  rewrite cleanup_eq. run. rewrite <- !app_assoc. reflexivity.
Qed.

(** ** The [trace] decorator *)

(** X6. The decorated function gives what the function gives, a returned
    value or a raised exception alike; around the function's own effects
    the wrapper reads the clock twice and logs one record on entry and one
    on exit, on every path. *)
Theorem trace_transparent {A} func_name (func : M A) w r w1 :
  func (set_log (log w ++ [trace_entering func_name])
          (set_clock (fun n => clock w (S n)) w)) = Some (r, w1) ->
  trace func_name func w =
    Some (r,
          set_log (log w1 ++ [trace_exiting func_name
                                (total_seconds (clock w1 0%nat - clock w 0%nat))])
            (set_clock (fun n => clock w1 (S n)) w1)).
Proof.
  intros Hfunc. unfold trace. step.
  unfold trace_entering in Hfunc. rewrite Hfunc. destruct r; reflexivity.
Qed.

(** ** Iterating over the wrapper *)

Lemma collect_all self tasks :
  forall acc w,
    shutdown_event w = false ->
    gen w = task_generator tasks ->
    for_in (S (length tasks)) (GeneratorErrorHandler_next self)
      (fun x acc => ret (Continue, acc ++ [x])) acc w =
      Some (Return (acc ++ tasks), set_gen [] w).
Proof.
  induction tasks as [|task tasks IH]; intros acc w He Hg.
  - rewrite for_in_unfold, next_exhausted by auto.
    rewrite app_nil_r. cbn in Hg. rewrite <- Hg. now destruct w.
  - cbn [length]. rewrite for_in_unfold.
    rewrite (next_yields _ _ task (task_generator tasks)) by auto.
    cbv [ret]. rewrite IH by (cbn; auto).
    rewrite <- app_assoc. reflexivity.
Qed.

(** X8. While the event is clear, iterating over the wrapper gives exactly
    the elements of the generator, in order, and leaves the metrics and
    the log alone. *)
Theorem wrapper_yields_all self tasks w :
  shutdown_event w = false ->
  gen w = task_generator tasks ->
  collect (S (length tasks)) (GeneratorErrorHandler_next self) w =
    Some (Return tasks, set_gen [] w).
Proof. intros He Hg. unfold collect. now rewrite collect_all. Qed.

(** X9. An error of the generator is counted once: the call that meets it
    raises it, and the next call finds the generator finished and signals
    the end of the sequence without touching anything; the elements behind
    the error are never produced. *)
Theorem wrapper_finished_after_error self w e rest :
  shutdown_event w = false ->
  gen w = Throw e :: rest ->
  exists w',
    GeneratorErrorHandler_next self w = Some (Raise (Error e), w') /\
    GeneratorErrorHandler_next self w' = Some (Raise StopIteration, w') /\
    gen w' = [].
Proof.
  intros He Hg. unfold GeneratorErrorHandler_next, next_gen. step.
  rewrite He, Hg. step.
  destruct (self_metrics self); step;
    (eexists; split; [reflexivity|]); cbn; rewrite He; auto.
Qed.

(** ** Order of the tasks *)

Lemma filter_length_Permutation {A} (f : A -> bool) (l1 l2 : list A) :
  Permutation l1 l2 ->
  length (List.filter f l1) = length (List.filter f l2).
Proof.
  induction 1 as [|x l1 l2 _ IH|x y l|l1 l2 l3 _ IH1 _ IH2]; cbn.
  - reflexivity.
  - destruct (f x); cbn; congruence.
  - destruct (f x), (f y); reflexivity.
  - congruence.
Qed.

Lemma forallb_Permutation {A} (f : A -> bool) (l1 l2 : list A) :
  Permutation l1 l2 -> forallb f l1 = forallb f l2.
Proof.
  induction 1 as [|x l1 l2 _ IH|x y l|l1 l2 l3 _ IH1 _ IH2]; cbn.
  - reflexivity.
  - now rewrite IH.
  - destruct (f x), (f y); reflexivity.
  - congruence.
Qed.


(** ** Runs that are cut short

    The loop first works through a prefix of the generator undisturbed. *)
Lemma submission_loop_prefix self libs :
  forall tasks rest fuel futures w,
    gen w = (Yield <$> tasks) ++ rest ->
    shutdown_event w = false ->
    (forall n, (n < 2 * length tasks)%nat -> signals w n = None) ->
    (forall n, (n < length tasks)%nat -> pool_fault w n = false) ->
    exists futures' w',
      for_in (length tasks + fuel)
        (interrupt ≫= λ _ : (), GeneratorErrorHandler_next self)
        (submit_task libs) futures w =
      for_in fuel (interrupt ≫= λ _ : (), GeneratorErrorHandler_next self)
        (submit_task libs) futures' w' /\
      same_work w' (after_tasks libs tasks w) /\
      gen w' = rest /\
      shutdown_event w' = false /\
      (forall n, signals w' n = signals w (2 * length tasks + n)%nat) /\
      (forall n, pool_fault w' n = pool_fault w (length tasks + n)%nat).
Proof.
  intros tasks.
  induction tasks as [|task tasks IH]; intros rest fuel futures w Hg He Hs Hp.
  - exists futures, w. cbn. repeat split; auto.
  - cbn [length Nat.add]. rewrite for_in_unfold, pull_eq.
    rewrite (interrupt_quiet _ (Hs 0%nat ltac:(cbn; lia))).
    rewrite (next_yields _ _ task ((Yield <$> tasks) ++ rest)) by (cbn; auto).
    rewrite submit_task_quiet
      by (cbn; auto; first [apply (Hs 1%nat) | apply (Hp 0%nat)]; cbn; lia).
    match goal with
    | |- context [for_in _ _ _ ?futures1 ?w1] =>
        destruct (IH rest fuel futures1 w1)
          as (futures' & w' & -> & Hw & Hg' & He' & Hs' & Hp');
          [..|set (wa := w1) in *]
    end.
    + unfold after_task. now destruct (caught task libs).
    + unfold after_task. destruct (caught task libs); cbn; exact He.
    + intros n Hn. unfold after_task.
      destruct (caught task libs); cbn; apply Hs; cbn; lia.
    + intros n Hn. unfold after_task.
      destruct (caught task libs); cbn; apply Hp; cbn; lia.
    + exists futures', w'. split; [reflexivity|].
      split; [|split; [exact Hg'|split; [exact He'|split]]].
      * destruct Hw as (Hm & Hl & Hc).
        cbn [after_tasks fold_left].
        fold (after_tasks libs tasks (after_task libs task w)).
        destruct (after_tasks_same_work libs tasks wa (after_task libs task w))
          as (Hm2 & Hl2 & Hc2).
        { apply after_task_same_work. repeat split. }
        repeat split; congruence.
      * intros n. rewrite Hs'. unfold wa, after_task.
        destruct (caught task libs); cbn; f_equal; lia.
      * intros n. rewrite Hp'. unfold wa, after_task.
        destruct (caught task libs); cbn; f_equal; lia.
Qed.

(** The [finally] block only adds to the log. *)
Lemma summarize_and_exit_log w :
  exists e w' records,
    summarize_and_exit w = Some (Raise e, w') /\
    metrics w' = metrics w /\
    log w' = log w ++ records.
Proof.
  unfold summarize_and_exit, poll. step. rewrite cleanup_eq. step.
  destruct (failure_count (metrics w) =? 0); step.
  - rewrite interrupt_eq. cbn.
    destruct (signals w 0%nat); cbn;
      eexists _, _, _; (split; [reflexivity|]); cbn;
      (split; [reflexivity|]); rewrite <- !app_assoc; reflexivity.
  - eexists _, _, _. split; [reflexivity|]. cbn.
    split; [reflexivity|]. rewrite <- !app_assoc. reflexivity.
Qed.

(** When the [try] block of the batch raises an error, the handler logs
    it as fatal and the run still ends in the [finally] block. *)
Lemma run_batch_raises g libs w err w1 :
  submit_and_wait {| self_metrics := true; self_name := "task_generator" |} libs
    (S (length g)) (set_gen g (set_metrics initial_metrics w)) =
    Some (Raise (Error err), w1) ->
  exists code w',
    run_batch g libs w = Some (Raise (SystemExit code), w') /\
    metrics w' = metrics w1 /\
    In (fatal_error_record (Error err)) (log w').
Proof.
  intros Hbody.
  destruct (run_batch_cases g libs w) as (r1 & w1' & code & w' & Hbody' & Hrun & Hm).
  rewrite Hbody in Hbody'. injection Hbody' as <- <-.
  exists code, w'. split; [exact Hrun|]. split; [exact Hm|].
  unfold run_batch in Hrun.
  cbv [mbind M_bind bind put_metrics try_finally try_except] in Hrun.
  rewrite Hbody in Hrun. cbn in Hrun.
  cbv [mbind M_bind bind logging_exception emit sys_exit raise] in Hrun.
  match type of Hrun with
  | context [summarize_and_exit ?w2] =>
      destruct (summarize_and_exit_log w2) as (e' & w'' & records & Hs & _ & Hl)
  end.
  rewrite Hs in Hrun. injection Hrun as _ <-.
  rewrite Hl. cbn. rewrite !in_app_iff. cbn. auto.
Qed.

Lemma submit_task_fault libs task futures w :
  shutdown_event w = false ->
  signals w 0%nat = None ->
  pool_fault w 0%nat = true ->
  submit_task libs task futures w =
    Some (Raise (Error cannot_start_thread),
          set_pool_fault (fun n => pool_fault w (S n))
            (set_signals (fun n => signals w (S n)) w)).
Proof.
  intros He Hs Hp. unfold submit_task, poll. step.
  rewrite (interrupt_quiet _ Hs). cbn. rewrite He. step.
  unfold executor_submit. cbn. rewrite Hp. reflexivity.
Qed.




(** ** Tasks that name no library *)

(** X7. A task whose parameters have no ['lib_name'] entry fails whatever the
    registry holds: the lookup of [None] finds nothing, [compute] is never
    called, and the failure is counted and logged like any other. *)
Theorem task_without_library_fails task libs w :
  params task !! "lib_name" = None ->
  let e := {| err_class := RuntimeError;
              err_text := {| fmt := "Library %s not configured";
                             args := [AValue VNone] |} |} in
  exists w',
    process_task task libs w = Some (Return (id task, VNone), w') /\
    log w' = log w ++ [entering_record; failed_record task (Error e);
                       exiting_record (total_seconds (clock w 2%nat - clock w 0%nat))] /\
    task_count (metrics w') = task_count (metrics w) + 1 /\
    failure_count (metrics w') = failure_count (metrics w) + 1 /\
    success_count (metrics w') = success_count (metrics w) /\
    durations (metrics w') = durations (metrics w).
Proof.
  intros Hmissing e.
  assert (lib_name task = VNone) as Hn by (unfold lib_name; now rewrite Hmissing).
  exists (after_failure task (Error e) w). split.
  - apply process_task_failure_eq. unfold caught. rewrite Hn. reflexivity.
  - cbn. auto.
Qed.

(** ** The closing summary *)

(** X17. Every batch, however it ends, logs the summary of the metrics it ends
    with. *)
Theorem batch_always_summarizes g libs w :
  exists code w',
    run_batch g libs w = Some (Raise (SystemExit code), w') /\
    In (summary_record (metrics w')) (log w').
Proof.
  destruct (run_batch_exit g libs w) as (w' & Hrun & Hin).
  eexists _, w'. split; [exact Hrun|exact Hin].
Qed.

End Properties.

(** * The theorems at work on the concrete batch *)

(** [t1] on the [echo] registry. *)
Lemma process_task_success_witness :
  resolves t1 echo_registry echo /\
  compute echo (params t1) = Returns (VInt 1) /\
  exists w',
    process_task t1 echo_registry quiet = Some (Return (id t1, VInt 1), w') /\
    task_count (metrics w') = task_count (metrics quiet) + 1 /\
    success_count (metrics w') = success_count (metrics quiet) + 1 /\
    failure_count (metrics w') = failure_count (metrics quiet) /\
    durations (metrics w') =
      durations (metrics quiet) ++ [total_seconds (clock quiet 2%nat - clock quiet 1%nat)] /\
    business_value (metrics w') =
      fadd (business_value (metrics quiet)) (expected_value t1).
Proof.
  assert (Hr : resolves t1 echo_registry echo)
    by (exists "echo"; split; reflexivity).
  assert (Hc : compute echo (params t1) = Returns (VInt 1))
    by reflexivity.
  split; [exact Hr|]. split; [exact Hc|].
  exact (process_task_success t1 echo_registry quiet echo (VInt 1) Hr Hc).
Defined.

(** [t3], whose library is not configured. *)
Lemma process_task_failure_frame_witness :
  (unresolved t3 echo_registry \/ exists e, compute_raises t3 echo_registry e) /\
  exists w',
    process_task t3 echo_registry quiet = Some (Return (id t3, VNone), w') /\
    task_count (metrics w') = task_count (metrics quiet) + 1 /\
    failure_count (metrics w') = failure_count (metrics quiet) + 1 /\
    success_count (metrics w') = success_count (metrics quiet) /\
    durations (metrics w') = durations (metrics quiet) /\
    business_value (metrics w') = business_value (metrics quiet) /\
    generator_errors (metrics w') = generator_errors (metrics quiet).
Proof.
  assert (Hf : unresolved t3 echo_registry \/
               exists e, compute_raises t3 echo_registry e).
  { left. intros lib (s & Hn & Hl).
    change (VStr "missing" = VStr s) in Hn. injection Hn as <-.
    change (None = Some lib) in Hl. discriminate Hl. }
  split; [exact Hf|].
  exact (process_task_failure_frame t3 echo_registry quiet Hf).
Defined.


(** Three tasks are waiting in the generator and the event is set. *)
Lemma next_stops_on_shutdown_witness :
  shutdown_event (set_shutdown_event true (set_gen (task_generator [t1; t2; t3]) quiet)) = true /\
  GeneratorErrorHandler_next task_stream
    (set_shutdown_event true (set_gen (task_generator [t1; t2; t3]) quiet)) =
  Some (Raise StopIteration,
        set_shutdown_event true (set_gen (task_generator [t1; t2; t3]) quiet)).
Proof.
  split; [reflexivity|].
  apply (next_stops_on_shutdown task_stream
           (set_shutdown_event true (set_gen (task_generator [t1; t2; t3]) quiet))).
  reflexivity.
Defined.


(** The document without tasks. *)
Lemma empty_batch_exits_zero_witness :
  exists w',
    run_script empty_document echo_modules quiet = Some (0, w') /\
    task_count (metrics w') = 0 /\
    success_count (metrics w') = 0 /\
    failure_count (metrics w') = 0 /\
    avg_time (metrics w') = PyInt 0 /\
    In (summary_record (metrics w')) (log w') /\
    shutdown_event w' = false.
Proof.
  apply (empty_batch_exits_zero empty_document echo_modules quiet).
  - reflexivity.
  - reflexivity.
  - repeat constructor. intros Hin. inversion Hin.
  - intros lib [<- | []]. exists echo. reflexivity.
  - intros n. reflexivity.
Defined.

(** The document that has the id [t1] twice. *)
Lemma duplicate_configuration_rejected_witness :
  exists e,
    AppConfig_parse_obj duplicate_document quiet = Some (Raise (Error e), quiet) /\
    err_class e = ValidationError /\
    run_script duplicate_document echo_modules quiet =
      Some (1, set_log (log quiet ++ invalid_configuration_record (Error e)
                                     :: cleanup_records)
                 (set_shutdown_event false quiet)).
Proof.
  apply (duplicate_configuration_rejected duplicate_document echo_modules quiet).
  right. intros Hnd. inversion Hnd as [|k ks Hnin _]; subst.
  apply Hnin. left.
Defined.

(** ** A fatal error that leaves status 0 *)

(** C1 at a failing input. The submission raises, the handler of [main]
    logs the fatal error and calls [sys.exit(1)], and the [finally] block
    then calls [sys.exit(0)] because no failure was counted and no shutdown
    was requested: the process exits with status 0 after a fatal error. *)
Theorem fatal_error_exits_zero :
  exists w',
    run_script one_task_document echo_modules refusing_pool = Some (0, w') /\
    metrics w' = initial_metrics /\
    shutdown_event w' = false /\
    log w' = [loaded_record;
              fatal_error_record (Error cannot_start_thread);
              summary_record initial_metrics]
             ++ cleanup_records ++ cleanup_records.
Proof.
  assert (fst <$> run_script one_task_document echo_modules refusing_pool = Some 0)
    as Hcode by reflexivity.
  assert ((fun r => (metrics (snd r), shutdown_event (snd r), log (snd r))) <$>
            run_script one_task_document echo_modules refusing_pool =
          Some (initial_metrics, false,
                [loaded_record; fatal_error_record (Error cannot_start_thread);
                 summary_record initial_metrics] ++ cleanup_records ++ cleanup_records))
    as Hw by reflexivity.
  destruct (run_script one_task_document echo_modules refusing_pool) as [[code w']|];
    [|discriminate].
  injection Hcode as ->. injection Hw as Hm Hs Hl.
  exists w'. auto.
Qed.

(** The same at the level of the batch, for a generator that raises after
    its first element: the wrapper counts and re-raises the error, [main]
    treats it as fatal, and the status is still 0. *)
Lemma stream_error_exits_zero :
  exists w',
    run_batch broken_gen echo_registry quiet = Some (Raise (SystemExit 0), w') /\
    generator_errors (metrics w') = Some 1 /\
    task_count (metrics w') = 1 /\
    success_count (metrics w') = 1 /\
    failure_count (metrics w') = 0 /\
    shutdown_event w' = false /\
    In (fatal_error_record (Error boom)) (log w').
Proof.
  assert (fst <$> run_batch broken_gen echo_registry quiet = Some (Raise (SystemExit 0)))
    as Hcode by reflexivity.
  assert ((fun r => (metrics (snd r), shutdown_event (snd r), log (snd r) !! 4%nat)) <$>
            run_batch broken_gen echo_registry quiet =
          Some ({| task_count := 1; success_count := 1; failure_count := 0;
                   durations := [1%float]; business_value := 1.5%float;
                   generator_errors := Some 1 |}, false,
                Some (fatal_error_record (Error boom))))
    as Hw by reflexivity.
  destruct (run_batch broken_gen echo_registry quiet) as [[r w']|];
    [|discriminate].
  injection Hcode as ->. injection Hw as Hm Hs Hl.
  exists w'. rewrite Hm. repeat (split; [reflexivity || assumption|]).
  apply list_elem_of_In. eapply list_elem_of_lookup_2. exact Hl.
Qed.

(** ** The scenario of three tasks

    [t1] and [t2] succeed, [t3] names a missing library: two successes,
    one failure, the business value of the two successes, status 1. *)
Lemma scenario_three_tasks :
  exists w',
    run_script scenario_document echo_modules quiet = Some (1, w') /\
    task_count (metrics w') = 3 /\
    success_count (metrics w') = 2 /\
    failure_count (metrics w') = 1 /\
    business_value (metrics w') = 3.75%float /\
    durations (metrics w') = [1%float; 1%float].
Proof.
  assert (fst <$> run_script scenario_document echo_modules quiet = Some 1)
    as Hcode by reflexivity.
  assert ((fun r => metrics (snd r)) <$>
            run_script scenario_document echo_modules quiet =
          Some {| task_count := 3; success_count := 2; failure_count := 1;
                  durations := [1%float; 1%float]; business_value := 3.75%float;
                  generator_errors := None |}) as Hm by reflexivity.
  destruct (run_script scenario_document echo_modules quiet) as [[code w']|];
    [|discriminate].
  injection Hcode as ->. injection Hm as Hm.
  exists w'. split; [reflexivity|]. rewrite Hm. repeat split; reflexivity.
Qed.

(** * The further properties on the concrete batch *)

(** A thread count of 0. *)
Lemma invalid_configuration_exits_one_witness :
  exists e,
    err_class e = ValidationError /\
    run_script zero_threads_document echo_modules quiet =
      Some (1, set_log (log quiet ++ invalid_configuration_record (Error e)
                                     :: cleanup_records)
                 (set_shutdown_event false quiet)).
Proof.
  apply (invalid_configuration_exits_one zero_threads_document echo_modules quiet).
  intros (Hpos & _). apply (Z.lt_irrefl 0). exact Hpos.
Defined.

(** The registry for the one library [echo]. *)
Lemma registry_maps_names_to_modules_witness :
  exists registry,
    load_libraries echo_modules [echo_library] ∅ quiet =
      Some (Return registry,
            set_log (log quiet ++ (library_loaded_record <$> [echo_library])) quiet) /\
    (forall lib, In lib [echo_library] ->
                 registry !! name lib = echo_modules !! module_name lib) /\
    (forall key, ~ In key (name <$> [echo_library]) -> registry !! key = None).
Proof.
  apply (registry_maps_names_to_modules echo_modules [echo_library] quiet).
  - repeat constructor. intros Hin. inversion Hin.
  - intros lib [<- | []]. exists echo. reflexivity.
Defined.


(** A traced function that raises. *)
Lemma trace_transparent_witness :
  trace "dummy" (raise (Error boom) : M value) quiet =
    Some (Raise (Error boom),
          set_log (log quiet ++ [trace_entering "dummy"]
                             ++ [trace_exiting "dummy"
                                   (total_seconds (clock quiet 1%nat - clock quiet 0%nat))])
            (set_clock (fun n => clock quiet (2 + n)%nat) quiet)).
Proof.
  rewrite (trace_transparent "dummy" (raise (Error boom) : M value) quiet
             (Raise (Error boom))
             (set_log (log quiet ++ [trace_entering "dummy"])
                (set_clock (fun n => clock quiet (S n)) quiet)) eq_refl).
  reflexivity.
Defined.

(** The three tasks, read through the wrapper of [main]. *)
Lemma wrapper_yields_all_witness :
  collect (S (length [t1; t2; t3])) (GeneratorErrorHandler_next task_stream)
    (set_gen (task_generator [t1; t2; t3]) quiet) =
    Some (Return [t1; t2; t3],
          set_gen [] (set_gen (task_generator [t1; t2; t3]) quiet)).
Proof.
  apply (wrapper_yields_all task_stream [t1; t2; t3]
           (set_gen (task_generator [t1; t2; t3]) quiet)); reflexivity.
Defined.

(** A task is waiting behind the error and is never produced. *)
Lemma wrapper_finished_after_error_witness :
  exists w',
    GeneratorErrorHandler_next task_stream (set_gen [Throw boom; Yield t1] quiet) =
      Some (Raise (Error boom), w') /\
    GeneratorErrorHandler_next task_stream w' = Some (Raise StopIteration, w') /\
    gen w' = [].
Proof.
  apply (wrapper_finished_after_error task_stream
           (set_gen [Throw boom; Yield t1] quiet) boom [Yield t1]); reflexivity.
Defined.

(** The wrapper of the unit test meets an error. *)
Lemma next_reraises_without_metrics_witness :
  exists w',
    GeneratorErrorHandler_next bare_wrapper (set_gen [Throw boom] quiet) =
      Some (Raise (Error boom), w') /\
    log w' = log (set_gen [Throw boom] quiet) ++
             [generator_error_record bare_wrapper (Error boom)] /\
    metrics w' = metrics (set_gen [Throw boom] quiet).
Proof.
  apply (next_reraises_without_metrics bare_wrapper (set_gen [Throw boom] quiet)
           boom []); reflexivity.
Defined.




(** The run of the three tasks reaches the batch. *)
Lemma exit_status_policy_witness :
  exists code w',
    run_script scenario_document echo_modules quiet = Some (code, w') /\
    (code = 0 <-> failure_count (metrics w') = 0 /\ shutdown_event w' = false).
Proof.
  apply (exit_status_policy scenario_document echo_modules quiet
           {| threads := 2; libraries := [echo_library]; tasks := [t1; t2; t3] |}
           (<["echo" := echo]> ∅)
           (set_log (log (set_shutdown_event false quiet)
                       ++ [library_loaded_record echo_library])
              (set_shutdown_event false quiet)));
    reflexivity.
Defined.




(** [t5] has parameters and no library name. *)
Lemma task_without_library_fails_witness :
  let e := {| err_class := RuntimeError;
              err_text := {| fmt := "Library %s not configured";
                             args := [AValue VNone] |} |} in
  exists w',
    process_task t5 echo_registry quiet = Some (Return (id t5, VNone), w') /\
    log w' = log quiet ++ [entering_record; failed_record t5 (Error e);
                           exiting_record (total_seconds (clock quiet 2%nat - clock quiet 0%nat))] /\
    task_count (metrics w') = task_count (metrics quiet) + 1 /\
    failure_count (metrics w') = failure_count (metrics quiet) + 1 /\
    success_count (metrics w') = success_count (metrics quiet) /\
    durations (metrics w') = durations (metrics quiet).
Proof.
  apply (task_without_library_fails t5 echo_registry quiet). reflexivity.
Defined.
